(** * Akshat123j/weather: the GPS handoff listener and the weather lookup

    A shallow embedding of [weather/gps_server/listener.py],
    [weather/weather.py] and [weather/output.py].  Python values that travel through JSON are
    values of [json]; effects (the temporary file, the listening socket,
    the responses written to the client) are explicit state. *)

From Stdlib Require Import String Ascii List ZArith QArith Qround Bool Lia.
From Stdlib Require Import DecimalString.
From Stdlib Require SpecFloat.
Import ListNotations.

Set Warnings "-register-all".

Local Open Scope string_scope.
Local Open Scope list_scope.

(** ** Python values carried by JSON *)

(** The floats that have no decimal literal of their own: what
    Python's parser reads from NaN, Infinity, -Infinity and -0.0. *)
Inductive special : Type :=
| NaN
| PosInfinity
| NegInfinity
| NegZero.

(** What [json.loads] / [response.json()] hand to the program.  Integers
    and floats are kept apart as Python does; [JFloat q] is the float
    written as the decimal [q], which Python holds as the binary64
    nearest to it ([PyFloat.of_Q]). *)
Inductive json : Type :=
| JNull
| JBool (b : bool)
| JInt (z : Z)
| JFloat (q : Q)
| JStr (s : string)
| JArr (items : list json)
| JObj (fields : list (string * json))
| JSpecial (v : special).

(** [d.get(k)] on a dict whose keys are kept distinct by [dict_set]:
    [None] (here [JNull]) when the key is missing. *)
Fixpoint dict_lookup (k : string) (fields : list (string * json)) : option json :=
  match fields with
  | [] => None
  | (k', v) :: rest => if String.eqb k k' then Some v else dict_lookup k rest
  end.

Definition dict_get (k : string) (fields : list (string * json)) : json :=
  match dict_lookup k fields with
  | Some v => v
  | None => JNull
  end.

(** [d[k] = v]: overwrite in place, or append a new key. *)
Fixpoint dict_set (k : string) (v : json) (fields : list (string * json))
  : list (string * json) :=
  match fields with
  | [] => [(k, v)]
  | (k', v') :: rest =>
      if String.eqb k k' then (k', v) :: rest else (k', v') :: dict_set k v rest
  end.

(** [x is not None] *)
Definition is_not_None (v : json) : bool :=
  match v with
  | JNull => false
  | _ => true
  end.

Definition Qltb (a b : Q) : bool := negb (Qle_bool b a).

(** Decimal text of an integer, as [str(int)] prints it. *)
Definition string_of_Z (z : Z) : string := NilZero.string_of_int (Z.to_int z).

(** ** Python floats

    IEEE 754 binary64, as the standard library specifies it: values
    are [spec_float]s and every operation rounds to nearest, ties to
    even. *)
Module PyFloat.

Definition float : Type := SpecFloat.spec_float.

Definition prec : Z := 53.
Definition emax : Z := 1024.

(** [float(z)] for an [int]; an infinity where Python raises
    OverflowError. *)
Definition of_Z (z : Z) : float := SpecFloat.binary_normalize prec emax z 0 false.

(** The binary64 nearest to the rational [q]: what the parser makes of
    a decimal literal (an infinity beyond the range, a signed zero
    below it). *)
Definition of_Q (q : Q) : float :=
  let quotient (negative : bool) (n : positive) : float :=
    let '(m, e, l) :=
      SpecFloat.SFdiv_core_binary prec emax (Zpos n) 0 (Zpos (Qden q)) 0 in
    SpecFloat.binary_round_aux prec emax negative m e l in
  match Qnum q with
  | Z0 => SpecFloat.S754_zero false
  | Zpos n => quotient false n
  | Zneg n => quotient true n
  end.

Definition of_special (v : special) : float :=
  match v with
  | NaN => SpecFloat.S754_nan
  | PosInfinity => SpecFloat.S754_infinity false
  | NegInfinity => SpecFloat.S754_infinity true
  | NegZero => SpecFloat.S754_zero true
  end.

Definition zero : float := SpecFloat.S754_zero false.
Definition one : float := of_Z 1.
Definition hundred : float := of_Z 100.

Definition mul (x y : float) : float := SpecFloat.SFmul prec emax x y.
Definition div (x y : float) : float := SpecFloat.SFdiv prec emax x y.
Definition ltb (x y : float) : bool := SpecFloat.SFltb x y.
Definition leb (x y : float) : bool := SpecFloat.SFleb x y.
Definition eqb (x y : float) : bool := SpecFloat.SFeqb x y.

(** Round to the nearest integer, ties to even. *)
Definition round_half_even (q : Q) : Z :=
  let f := Qfloor q in
  let r := (q - inject_Z f)%Q in
  if Qltb r (1 # 2) then f
  else if Qltb (1 # 2) r then (f + 1)%Z
  else if Z.even f then f else (f + 1)%Z.

(** The exact value of the finite float with mantissa [m] and
    exponent [e]. *)
Definition magnitude (m : positive) (e : Z) : Q :=
  if (0 <=? e)%Z then inject_Z (Zpos m * 2 ^ e)
  else (Zpos m # Pos.pow 2 (Z.to_pos (- e))).

(** [format(x, ".0f")]: the exact value rounded to an integer, ties to
    even, with the sign of [x]. *)
Definition format_0f (x : float) : string :=
  match x with
  | SpecFloat.S754_nan => "nan"
  | SpecFloat.S754_infinity s => if s then "-inf" else "inf"
  | SpecFloat.S754_zero s => if s then "-0" else "0"
  | SpecFloat.S754_finite s m e =>
      (if s then "-" else "") ++ string_of_Z (round_half_even (magnitude m e))
  end.

End PyFloat.

(** Python truthiness, [bool(x)]. *)
Definition truthy (v : json) : bool :=
  match v with
  | JNull => false
  | JBool b => b
  | JInt z => negb (Z.eqb z 0)
  | JFloat q => negb (PyFloat.eqb (PyFloat.of_Q q) PyFloat.zero)
  | JStr s => negb (String.eqb s "")
  | JArr items => match items with [] => false | _ => true end
  | JObj fields => match fields with [] => false | _ => true end
  | JSpecial v => negb (PyFloat.eqb (PyFloat.of_special v) PyFloat.zero)
  end.

(** ** Text with double quotes

    [requote m s] is [s] with every [m] turned into a double quote, so
    that JSON and HTML text can be written down legibly. *)
Definition dquote : ascii := "034"%char.

Fixpoint requote (m : ascii) (s : string) : string :=
  match s with
  | EmptyString => EmptyString
  | String c rest =>
      String (if Ascii.eqb c m then dquote else c) (requote m rest)
  end.

(** JSON text written with single quotes for the double ones. *)
Definition js (s : string) : string := requote "'"%char s.

(** ** A reference JSON codec

    [MiniJson.loads] and [MiniJson.dumps] follow [json.loads] and
    [json.dumps] on the JSON the handoff uses: objects, arrays, strings
    with the one-letter escapes, decimal numbers, [true], [false],
    [null].  The listener below is stated over any codec; this one runs
    it on literal payloads. *)
Module MiniJson.

Definition is_ws (c : ascii) : bool :=
  let n := nat_of_ascii c in
  ((n =? 32) || (n =? 9) || (n =? 10) || (n =? 13))%nat.

Fixpoint skip_ws (s : string) : string :=
  match s with
  | String c rest => if is_ws c then skip_ws rest else s
  | EmptyString => EmptyString
  end.

Definition digit_of (c : ascii) : option Z :=
  let n := nat_of_ascii c in
  if ((48 <=? n) && (n <=? 57))%nat then Some (Z.of_nat (n - 48)) else None.

(** Leading digits of [s]: their value, how many, and the rest. *)
Fixpoint read_digits (acc : Z) (count : nat) (s : string) : Z * nat * string :=
  match s with
  | String c rest =>
      match digit_of c with
      | Some d => read_digits (acc * 10 + d)%Z (S count) rest
      | None => (acc, count, s)
      end
  | EmptyString => (acc, count, s)
  end.

Definition starts_with_zero (s : string) : bool :=
  match s with
  | String c _ => Ascii.eqb c "0"%char
  | EmptyString => false
  end.

(** exponent part [e[+-]digits], if any *)
Definition read_exponent (s : string) : option (option Z * string) :=
  match s with
  | String c rest =>
      if Ascii.eqb c "e"%char || Ascii.eqb c "E"%char then
        let '(neg, rest1) :=
          match rest with
          | String sg r =>
              if Ascii.eqb sg "-"%char then (true, r)
              else if Ascii.eqb sg "+"%char then (false, r)
              else (false, rest)
          | EmptyString => (false, rest)
          end in
        match read_digits 0 0 rest1 with
        | (_, O, _) => None
        | (e, _, rest2) => Some (Some (if neg then (- e)%Z else e), rest2)
        end
      else Some (None, s)
  | EmptyString => Some (None, s)
  end.

Definition scale10 (m : Z) (e : Z) : Q :=
  if (0 <=? e)%Z then inject_Z (m * 10 ^ e)
  else (m # Pos.pow 10 (Z.to_pos (- e))).

(** A JSON number: an int without fraction and exponent, else a float. *)
Definition parse_number (s : string) : option (json * string) :=
  let '(neg, s1) :=
    match s with
    | String c rest => if Ascii.eqb c "-"%char then (true, rest) else (false, s)
    | EmptyString => (false, s)
    end in
  match read_digits 0 0 s1 with
  | (_, O, _) => None
  | (ip, n, s2) =>
      if starts_with_zero s1 && (1 <? n)%nat then None
      else
        let sign (z : Z) := if neg then (- z)%Z else z in
        let '(frac, s3) :=
          match s2 with
          | String c rest =>
              if Ascii.eqb c "."%char then
                match read_digits 0 0 rest with
                | (_, O, _) => (None, s2)
                | (fp, k, rest') => (Some (fp, k), rest')
                end
              else (None, s2)
          | EmptyString => (None, s2)
          end in
        match s3, frac with
        | String c _, None =>
            if Ascii.eqb c "."%char then None
            else
              match read_exponent s3 with
              | Some (None, s4) => Some (JInt (sign ip), s4)
              | Some (Some e, s4) => Some (JFloat (scale10 (sign ip) e), s4)
              | None => None
              end
        | _, None => Some (JInt (sign ip), s3)
        | _, Some (fp, k) =>
            let m := sign (ip * 10 ^ Z.of_nat k + fp)%Z in
            match read_exponent s3 with
            | Some (None, s4) => Some (JFloat (scale10 m (- Z.of_nat k)), s4)
            | Some (Some e, s4) => Some (JFloat (scale10 m (e - Z.of_nat k)), s4)
            | None => None
            end
        end
  end.

Definition unescape (c : ascii) : option ascii :=
  let n := nat_of_ascii c in
  if (n =? 34)%nat then Some dquote
  else if (n =? 92)%nat then Some "\"%char
  else if (n =? 47)%nat then Some "/"%char
  else if (n =? 98)%nat then Some "008"%char
  else if (n =? 102)%nat then Some "012"%char
  else if (n =? 110)%nat then Some "010"%char
  else if (n =? 114)%nat then Some "013"%char
  else if (n =? 116)%nat then Some "009"%char
  else None.

(** The characters of a string literal after its opening quote. *)
Fixpoint parse_string_body (s : string) : option (string * string) :=
  match s with
  | EmptyString => None
  | String c rest =>
      if Ascii.eqb c dquote then Some (EmptyString, rest)
      else if Ascii.eqb c "\"%char then
        match rest with
        | String e rest' =>
            match unescape e, parse_string_body rest' with
            | Some c', Some (body, tail) => Some (String c' body, tail)
            | _, _ => None
            end
        | EmptyString => None
        end
      else if (nat_of_ascii c <? 32)%nat then None
      else
        match parse_string_body rest with
        | Some (body, tail) => Some (String c body, tail)
        | None => None
        end
  end.

Definition expect (lit : string) (v : json) (s : string) : option (json * string) :=
  if String.prefix lit s
  then Some (v, String.substring (String.length lit)
                                 (String.length s - String.length lit) s)
  else None.

Fixpoint parse_value (fuel : nat) (s : string) {struct fuel} : option (json * string) :=
  match fuel with
  | O => None
  | S fuel' =>
      match skip_ws s with
      | EmptyString => None
      | String c rest =>
          if Ascii.eqb c dquote then
            match parse_string_body rest with
            | Some (str, tail) => Some (JStr str, tail)
            | None => None
            end
          else if Ascii.eqb c "["%char then
            match skip_ws rest with
            | String c' rest' =>
                if Ascii.eqb c' "]"%char then Some (JArr [], rest')
                else parse_items fuel' [] rest
            | EmptyString => None
            end
          else if Ascii.eqb c "{"%char then
            match skip_ws rest with
            | String c' rest' =>
                if Ascii.eqb c' "}"%char then Some (JObj [], rest')
                else parse_members fuel' [] rest
            | EmptyString => None
            end
          else if Ascii.eqb c "t"%char then expect "true" (JBool true) (String c rest)
          else if Ascii.eqb c "f"%char then expect "false" (JBool false) (String c rest)
          else if Ascii.eqb c "n"%char then expect "null" JNull (String c rest)
          else parse_number (String c rest)
      end
  end

with parse_items (fuel : nat) (acc : list json) (s : string)
    {struct fuel} : option (json * string) :=
  match fuel with
  | O => None
  | S fuel' =>
      match parse_value fuel' s with
      | Some (v, tail) =>
          match skip_ws tail with
          | String c rest =>
              if Ascii.eqb c ","%char then parse_items fuel' (acc ++ [v]) rest
              else if Ascii.eqb c "]"%char then Some (JArr (acc ++ [v]), rest)
              else None
          | EmptyString => None
          end
      | None => None
      end
  end

with parse_members (fuel : nat) (acc : list (string * json)) (s : string)
    {struct fuel} : option (json * string) :=
  match fuel with
  | O => None
  | S fuel' =>
      match skip_ws s with
      | String q rest =>
          if Ascii.eqb q dquote then
            match parse_string_body rest with
            | Some (key, tail) =>
                match skip_ws tail with
                | String colon rest1 =>
                    if Ascii.eqb colon ":"%char then
                      match parse_value fuel' rest1 with
                      | Some (v, tail1) =>
                          match skip_ws tail1 with
                          | String c rest2 =>
                              if Ascii.eqb c ","%char
                              then parse_members fuel' (dict_set key v acc) rest2
                              else if Ascii.eqb c "}"%char
                              then Some (JObj (dict_set key v acc), rest2)
                              else None
                          | EmptyString => None
                          end
                      | None => None
                      end
                    else None
                | EmptyString => None
                end
            | None => None
            end
          else None
      | EmptyString => None
      end
  end.

(** [json.loads(text)]; [None] when it raises. *)
Definition loads (text : string) : option json :=
  match parse_value (S (String.length text)) text with
  | Some (v, tail) =>
      match skip_ws tail with
      | EmptyString => Some v
      | String _ _ => None
      end
  | None => None
  end.

(** *** Printing *)

Definition hex_digit (n : nat) : ascii :=
  ascii_of_nat (if (n <? 10)%nat then 48 + n else 87 + n).

(** One character of a string literal as [json.dumps] writes it. *)
Definition escape (c : ascii) : string :=
  let n := nat_of_ascii c in
  if (n =? 34)%nat then String "\"%char (String dquote EmptyString)
  else if (n =? 92)%nat then "\\"
  else if (n =? 10)%nat then "\n"
  else if (n =? 13)%nat then "\r"
  else if (n =? 9)%nat then "\t"
  else if (n =? 8)%nat then "\b"
  else if (n =? 12)%nat then "\f"
  else if (n <? 32)%nat then
    "\u00" ++ String (hex_digit (n / 16)) (String (hex_digit (n mod 16)) EmptyString)
  else String c EmptyString.

Fixpoint escape_all (s : string) : string :=
  match s with
  | EmptyString => EmptyString
  | String c rest => escape c ++ escape_all rest
  end.

Definition quote (s : string) : string :=
  String dquote (escape_all s ++ String dquote EmptyString).

(** The least [k <= fuel] with [den q] dividing [num q * 10^k]. *)
Fixpoint decimal_places (fuel : nat) (k : nat) (q : Q) : nat :=
  match fuel with
  | O => k
  | S fuel' =>
      if ((Qnum q * 10 ^ Z.of_nat k) mod (Zpos (Qden q)) =? 0)%Z then k
      else decimal_places fuel' (S k) q
  end.

(** [s] with zeros put in front up to [width] characters. *)
Fixpoint zeros (n : nat) : string :=
  match n with
  | O => ""
  | S n' => String "0"%char (zeros n')
  end.

Definition pad_zeros (width : nat) (s : string) : string :=
  (zeros (width - String.length s) ++ s)%string.

(** [repr] of a float in positional notation: at least one decimal. *)
Definition float_repr (q : Q) : string :=
  let k := Nat.max 1 (decimal_places 40 0 q) in
  let scaled := Z.abs (Qnum q * 10 ^ Z.of_nat k / Zpos (Qden q)) in
  let unit := (10 ^ Z.of_nat k)%Z in
  (if (Qnum q <? 0)%Z then "-" else "")
  ++ string_of_Z (scaled / unit) ++ "."
  ++ pad_zeros k (string_of_Z (scaled mod unit)).

Fixpoint dumps (v : json) : string :=
  match v with
  | JNull => "null"
  | JBool true => "true"
  | JBool false => "false"
  | JInt z => string_of_Z z
  | JFloat q => float_repr q
  | JSpecial NaN => "NaN"
  | JSpecial PosInfinity => "Infinity"
  | JSpecial NegInfinity => "-Infinity"
  | JSpecial NegZero => "-0.0"
  | JStr s => quote s
  | JArr items =>
      ("[" ++ (fix go (l : list json) : string :=
                 match l with
                 | [] => ""
                 | [x] => dumps x
                 | x :: rest => dumps x ++ ", " ++ go rest
                 end) items ++ "]")%string
  | JObj fields =>
      ("{" ++ (fix go (l : list (string * json)) : string :=
                 match l with
                 | [] => ""
                 | [(k, x)] => quote k ++ ": " ++ dumps x
                 | (k, x) :: rest => quote k ++ ": " ++ dumps x ++ ", " ++ go rest
                 end) fields ++ "}")%string
  end.

End MiniJson.

(** * weather.py *)

Module Weather.

Definition BASE_URL : string := "https://api.openweathermap.org/data/2.5/".
Definition DEFAULT_TIMEOUT : Z := 6.

(** The literal passed to [_get_api_key] on line 48 of weather.py. *)
Definition EMBEDDED_KEY : string := "dc33ba7d8d00e9fb8038ff70fd673c97".

(** [_get_api_key]: [if explicit_key: return explicit_key], else the
    environment's OPENWEATHER_API_KEY.  [environ] is [os.environ.get]. *)
Definition _get_api_key (environ : string -> option string)
    (explicit_key : option string) : option string :=
  match explicit_key with
  | Some k => if String.eqb k "" then environ "OPENWEATHER_API_KEY" else Some k
  | None => environ "OPENWEATHER_API_KEY"
  end.

(** *** Rain probability (lines 92-126) *)

Section Rain.

(** [float(s)] for a [str] argument: the interpreter's grammar, taken
    as given; [None] when it raises [ValueError]. *)
Variable float_of_str : string -> option PyFloat.float.

(** [float(p)]; [None] stands for the [TypeError], [ValueError] or
    [OverflowError] that the surrounding [try] turns into [continue]. *)
Definition py_float (p : json) : option PyFloat.float :=
  match p with
  | JNull => None
  | JBool b => Some (if b then PyFloat.one else PyFloat.zero)
  | JInt z =>
      match PyFloat.of_Z z with
      | SpecFloat.S754_infinity _ => None
      | x => Some x
      end
  | JFloat q => Some (PyFloat.of_Q q)
  | JSpecial v => Some (PyFloat.of_special v)
  | JStr s => float_of_str s
  | JArr _ => None
  | JObj _ => None
  end.

(** The builtins [min(a, b)] and [max(a, b)]: the first argument
    unless the second compares smaller (larger). *)
Definition py_min2 (a b : PyFloat.float) : PyFloat.float :=
  if PyFloat.ltb b a then b else a.

Definition py_max2 (a b : PyFloat.float) : PyFloat.float :=
  if PyFloat.ltb a b then b else a.

(** Lines 110-117, on the value [float(p)] produced. *)
Definition normalize_pop (p0 : PyFloat.float) : PyFloat.float :=
  let p := if PyFloat.ltb p0 PyFloat.zero then PyFloat.zero else p0 in
  if PyFloat.ltb PyFloat.one p then
    if PyFloat.ltb PyFloat.one p && PyFloat.leb p PyFloat.hundred
    then PyFloat.div p PyFloat.hundred
    else py_max2 PyFloat.zero (py_min2 PyFloat.one p)
  else p.

(** One turn of the [for entry in consider] loop: [None] when the entry
    contributes nothing ([continue]), otherwise the value appended. *)
Definition entry_pop (entry : json) : option PyFloat.float :=
  match entry with
  | JObj fields =>
      let p := dict_get "pop" fields in
      let p := if is_not_None p then p else JFloat 0 in
      match py_float p with
      | Some q => Some (normalize_pop q)
      | None => None
      end
  | _ => None
  end.

Fixpoint collect_pops (consider : list json) : list PyFloat.float :=
  match consider with
  | [] => []
  | entry :: rest =>
      match entry_pop entry with
      | Some p => p :: collect_pops rest
      | None => collect_pops rest
      end
  end.

(** [max(pops)] for a non-empty list: an item replaces the one kept
    when it compares greater. *)
Fixpoint py_max (first : PyFloat.float) (rest : list PyFloat.float) : PyFloat.float :=
  match rest with
  | [] => first
  | x :: rest' => py_max (if PyFloat.ltb first x then x else first) rest'
  end.

(** [f"{max_pop * 100:.0f}%"] *)
Definition format_percent (max_pop : PyFloat.float) : string :=
  PyFloat.format_0f (PyFloat.mul max_pop PyFloat.hundred) ++ "%".

(** Lines 93-126; [forecast_data] is [None] when the forecast request
    failed. *)
Definition rain_probability (forecast_data : option json) : string :=
  match forecast_data with
  | Some (JObj (f :: fs)) =>
      let got := dict_get "list" (f :: fs) in
      let flist := if truthy got then got else JArr [] in
      match flist with
      | JArr (e :: es) =>
          let consider := firstn 8 (e :: es) in
          match collect_pops consider with
          | p :: ps => format_percent (py_max p ps)
          | [] => "N/A"
          end
      | _ => "N/A"
      end
  | _ => "N/A"
  end.

End Rain.

(** *** fetch_weather_details *)

(** The keyword arguments of one [requests.get] call. *)
Record request : Type := {
  url : string;
  param_q : string;
  param_appid : option string;
  param_units : string;
  req_timeout : Z
}.

(** What a [requests.get] call, followed by [raise_for_status()] and
    [.json()], can do. *)
Inductive reply : Type :=
| Response (status : Z) (payload : json)
| BadPayload (status : Z) (text : string)
    (* [.json()] raises requests' JSONDecodeError, a RequestException *)
| RequestException (text : string)
| OtherException (text : string).

Inductive report : Type :=
| Error (message : string)
| Report (city temperature humidity wind_speed rain : string).

Inductive outcome : Type :=
| Returned (r : report)
| Raised (text : string).

Definition is_space (c : ascii) : bool :=
  let n := nat_of_ascii c in
  ((9 <=? n) && (n <=? 13) || (28 <=? n) && (n <=? 32))%nat.

Fixpoint lstrip (s : string) : string :=
  match s with
  | String c rest => if is_space c then lstrip rest else s
  | EmptyString => EmptyString
  end.

Fixpoint rstrip (s : string) : string :=
  match s with
  | String c rest =>
      match rstrip rest with
      | EmptyString => if is_space c then EmptyString else String c EmptyString
      | rest' => String c rest'
      end
  | EmptyString => EmptyString
  end.

(** [s.strip()] *)
Definition strip (s : string) : string := rstrip (lstrip s).

Section Fetch.

Variable environ : string -> option string.
Variable requests_get : request -> reply.
(** [str(he)] of the HTTPError that [raise_for_status()] raises. *)
Variable status_error_text : request -> Z -> string.
(** [fmt.format(value)]; [None] when it raises. *)
Variable str_format : string -> json -> option string.
Variable float_of_str : string -> option PyFloat.float.

(** [_format_value] *)
Definition _format_value (value : json) (fmt fallback : string) : string :=
  if is_not_None value then
    match str_format fmt value with
    | Some s => s
    | None => fallback
    end
  else fallback.

(** [raise_for_status()] raises for 400 <= status < 600. *)
Definition is_error_status (status : Z) : bool :=
  ((400 <=? status) && (status <? 600))%Z.

(** [current_data.get(k, {})] when [current_data] is a dict, else [{}]. *)
Definition section_of (current_data : json) (k : string) : json :=
  match current_data with
  | JObj fields =>
      match dict_lookup k fields with
      | Some v => v
      | None => JObj []
      end
  | _ => JObj []
  end.

(** Lines 84-137, once both requests are done. *)
Definition build_report (city : string) (current_data : json)
    (forecast_data : option json) : outcome :=
  match section_of current_data "main", section_of current_data "wind" with
  | JObj main, JObj wind =>
      let temp := dict_get "temp" main in
      let humidity := dict_get "humidity" main in
      let wind_speed := dict_get "speed" wind in
      Returned (Report city
        (_format_value temp "{:.1f}°C" "N/A")
        (if is_not_None humidity then _format_value humidity "{}%" "N/A" else "N/A")
        (_format_value wind_speed "{:.1f} m/s" "N/A")
        (rain_probability float_of_str forecast_data))
  | _, _ => Raised "AttributeError"
  end.

(** [fetch_weather_details(city, api_key, timeout)]: the requests it
    issues, in order, and how it ends.  The [print] is left out. *)
Definition fetch_weather_details (city : string) (api_key : option string)
    (timeout : Z) : list request * outcome :=
  if String.eqb city "" then ([], Returned (Error "Invalid city parameter."))
  else
    let key := _get_api_key environ (Some EMBEDDED_KEY) in
    let city := strip city in
    let params_current :=
      {| url := BASE_URL ++ "weather"; param_q := city; param_appid := key;
         param_units := "metric"; req_timeout := timeout |} in
    let params_forecast :=
      {| url := BASE_URL ++ "forecast"; param_q := city; param_appid := key;
         param_units := "metric"; req_timeout := timeout |} in
    let after_current (current_data : json) : list request * outcome :=
      match requests_get params_forecast with
      | Response status payload =>
          ([params_current; params_forecast],
           build_report city current_data
             (if is_error_status status then None else Some payload))
      | BadPayload status _ =>
          ([params_current; params_forecast], build_report city current_data None)
      | RequestException _ =>
          ([params_current; params_forecast], build_report city current_data None)
      | OtherException text =>
          ([params_current; params_forecast], Raised text)
      end in
    match requests_get params_current with
    | Response status payload =>
        if Z.eqb status 404 then
          ([params_current],
           Returned (Error ("City '" ++ city ++ "' not found (404).")))
        else if is_error_status status then
          ([params_current],
           Returned (Error ("HTTP error while fetching current weather: "
                            ++ status_error_text params_current status)))
        else after_current payload
    | BadPayload status text =>
        if Z.eqb status 404 then
          ([params_current],
           Returned (Error ("City '" ++ city ++ "' not found (404).")))
        else if is_error_status status then
          ([params_current],
           Returned (Error ("HTTP error while fetching current weather: "
                            ++ status_error_text params_current status)))
        else
          ([params_current],
           Returned (Error ("Network/error while fetching current weather: " ++ text)))
    | RequestException text =>
        ([params_current],
         Returned (Error ("Network/error while fetching current weather: " ++ text)))
    | OtherException text =>
        ([params_current],
         Returned (Error ("Unexpected error while fetching current weather: " ++ text)))
    end.

(** [_cli_main] after argument parsing: [--api-key] is handed over as
    [api_key]. *)
Definition _cli_main (arg_city : string) (arg_api_key : option string)
  : list request * outcome :=
  fetch_weather_details arg_city arg_api_key DEFAULT_TIMEOUT.

End Fetch.

(** *** Sample data *)

Definition forecast (entries : list json) : json := JObj [("list", JArr entries)].

Definition with_pop (p : json) : json := JObj [("pop", p)].

(** The pop values [0.1, 0.9, null, 150]. *)
Definition sample_pops : list json := [JFloat 0.1; JFloat 0.9; JNull; JInt 150].

Definition sample_forecast : json := forecast (map with_pop sample_pops).

Definition sample_current : json :=
  JObj [("main", JObj [("temp", JFloat 21.5); ("humidity", JInt 60)]);
        ("wind", JObj [("speed", JFloat 3.2)])].

(** A network on which both endpoints answer 200. *)
Definition sample_get (r : request) : reply :=
  if String.eqb (url r) (BASE_URL ++ "forecast")
  then Response 200 sample_forecast
  else Response 200 sample_current.

Definition sample_environ (name : string) : option string :=
  if String.eqb name "OPENWEATHER_API_KEY" then Some "key-from-environment" else None.

Definition sample_status_text (r : request) (status : Z) : string := string_of_Z status.

(** Stand-ins for [str.format] and [float(str)] where their results do
    not matter. *)
Definition sample_format (fmt : string) (v : json) : option string := None.
Definition sample_float (s : string) : option PyFloat.float := None.


End Weather.

(** * gps_server/listener.py *)

Module Listener.

Definition PORT : Z := 8000.
Definition ADDRESS : string := "127.0.0.1".

(** [HTML_PAGE], with ^ written for the double quote. *)
Definition HTML_PAGE : string := requote "^"%char "
<!DOCTYPE html>
<html>
<head>
    <title>GPS Location Fetcher</title>
</head>
<body onload=^getLocation()^>
    <h1>Location Status:</h1>
    <p id=^status_message^>Attempting to get location... (Please click 'Allow')</p>

    <script>
        function getLocation() {
            if (navigator.geolocation) {
                // Request current position with high accuracy
                navigator.geolocation.getCurrentPosition(sendLocationToServer, handleError, {enableHighAccuracy: true, timeout: 10000});
            } else {
                document.getElementById('status_message').innerText = ^Geolocation is not supported by this browser.^;
            }
        }

        function sendLocationToServer(position) {
            const lat = position.coords.latitude;
            const lon = position.coords.longitude;
            
            document.getElementById('status_message').innerText = `Location found! Lat: ${lat}, Lon: ${lon}. Sending to Python...`;

            const locationData = { latitude: lat, longitude: lon };

            fetch('/location_data', {
                method: 'POST',
                headers: { 'Content-Type': 'application/json' },
                body: JSON.stringify(locationData),
            })
            .then(response => {
                document.getElementById('status_message').innerText += `
Server acknowledged. You can now close this window.`;
            })
            .catch((error) => {
                document.getElementById('status_message').innerText += `
Error sending location: ${error}`;
            });
        }

        function handleError(error) {
            let msg = ^Error occurred.^;
            if (error.code === error.PERMISSION_DENIED) msg = ^User denied location permission.^;
            else if (error.code === error.TIMEOUT) msg = ^Location request timed out.^;
            document.getElementById('status_message').innerText = `Error: ${msg}`;
        }
    </script>
</body>
</html>
".

(** The exceptions that occur; all derive from [Exception]. *)
Inductive exn : Type :=
| FileNotFoundError
| PermissionError
| OSError
| ValueError
| TypeError
| AttributeError
| OverflowError.

(** What the process does to the outside, in the order it does it. *)
Inductive event : Type :=
| Removed                                   (* os.remove(TEMP_FILE_PATH) done *)
| Bind (address : string) (port : Z) (ok : bool)
| Wrote (content : string)                  (* the record written and closed *)
| ShutdownRequested                         (* self.server.shutdown() entered *)
| Head (status : Z) (content_type : option string)
                                            (* send_response .. end_headers *)
| Body (bytes : string)                     (* self.wfile.write *)
| ErrorPage (status : Z)                    (* send_error of the base handler *)
| StaticHead (path : string)                (* the inherited do_HEAD *)
| Closed.                                   (* server_close() *)

(** The two private fields of socketserver.BaseServer that
    [serve_forever] and [shutdown] share, and the socket. *)
Record server : Type := {
  shutdown_request : bool;
  is_shut_down : bool;
  socket_open : bool
}.

(** The temporary file at TEMP_FILE_PATH, what the operating system
    lets the process do with it, the port, the server object bound to
    the local [httpd], and the events so far (oldest first). *)
Record world : Type := {
  temp_file : option string;
  may_remove : bool;
  may_read : bool;
  may_write : bool;
  port_free : bool;
  httpd : option server;
  log : list event
}.

Definition set_temp_file (f : option string) (w : world) : world :=
  {| temp_file := f; may_remove := may_remove w; may_read := may_read w;
     may_write := may_write w; port_free := port_free w; httpd := httpd w;
     log := log w |}.

Definition set_httpd (h : option server) (w : world) : world :=
  {| temp_file := temp_file w; may_remove := may_remove w; may_read := may_read w;
     may_write := may_write w; port_free := port_free w; httpd := h;
     log := log w |}.

Definition emit (e : event) (w : world) : world :=
  {| temp_file := temp_file w; may_remove := may_remove w; may_read := may_read w;
     may_write := may_write w; port_free := port_free w; httpd := httpd w;
     log := log w ++ [e] |}.

(** How a piece of the program ends: normally, with an exception, or
    never (the thread waits for something that cannot happen). *)
Inductive result (A : Type) : Type :=
| Ok (a : A) (w : world)
| Raise (e : exn) (w : world)
| Blocked (w : world).

Arguments Ok {A} a w.
Arguments Raise {A} e w.
Arguments Blocked {A} w.

Definition M (A : Type) : Type := world -> result A.

Definition ret {A} (a : A) : M A := fun w => Ok a w.

Definition bind {A B} (m : M A) (k : A -> M B) : M B :=
  fun w =>
    match m w with
    | Ok a w' => k a w'
    | Raise e w' => Raise e w'
    | Blocked w' => Blocked w'
    end.

Definition raise {A} (e : exn) : M A := fun w => Raise e w.

(** [try: m  except Exception as e: h e] *)
Definition catch {A} (m : M A) (h : exn -> M A) : M A :=
  fun w =>
    match m w with
    | Ok a w' => Ok a w'
    | Raise e w' => h e w'
    | Blocked w' => Blocked w'
    end.

(** [try: m  finally: c] *)
Definition finally {A} (m : M A) (c : M unit) : M A :=
  fun w =>
    match m w with
    | Ok a w' => bind c (fun _ => ret a) w'
    | Raise e w' => bind c (fun _ => raise e) w'
    | Blocked w' => Blocked w'
    end.

Definition final_world {A} (r : result A) : world :=
  match r with
  | Ok _ w => w
  | Raise _ w => w
  | Blocked w => w
  end.

Declare Scope py_scope.
Delimit Scope py_scope with py.
Notation "x <- m ;; k" := (bind m (fun x => k))
  (at level 61, m at next level, right associativity) : py_scope.
Notation "m ;; k" := (bind m (fun _ => k))
  (at level 61, right associativity) : py_scope.
Local Open Scope py_scope.

(** *** The file and the sockets *)

Definition path_exists : M bool :=
  fun w => Ok (match temp_file w with Some _ => true | None => false end) w.

Definition os_remove : M unit :=
  fun w =>
    match temp_file w with
    | None => Raise FileNotFoundError w
    | Some _ =>
        if may_remove w then Ok tt (emit Removed (set_temp_file None w))
        else Raise PermissionError w
    end.

(** [with open(TEMP_FILE_PATH, 'w') as f: f.write(content)] *)
Definition write_file (content : string) : M unit :=
  fun w =>
    if may_write w then Ok tt (emit (Wrote content) (set_temp_file (Some content) w))
    else Raise PermissionError w.

(** [with open(TEMP_FILE_PATH, 'r') as f: f.read()] *)
Definition read_file : M string :=
  fun w =>
    match temp_file w with
    | None => Raise FileNotFoundError w
    | Some content => if may_read w then Ok content w else Raise PermissionError w
    end.

Definition send (e : event) : M unit := fun w => Ok tt (emit e w).

(** [self.server.shutdown()], socketserver.BaseServer.shutdown:
    [self.__shutdown_request = True; self.__is_shut_down.wait()]
    ("Blocks until the loop has finished.  This must be called while
    serve_forever() is running in another thread, or it will
    deadlock.").  The event is cleared when [serve_forever] starts and
    set in its [finally]; the program has one thread, so the wait ends
    at once when the event is set and never otherwise. *)
Definition shutdown : M unit :=
  fun w =>
    match httpd w with
    | None => Raise AttributeError w
    | Some srv =>
        let srv' := {| shutdown_request := true; is_shut_down := is_shut_down srv;
                       socket_open := socket_open srv |} in
        let w' := emit ShutdownRequested (set_httpd (Some srv') w) in
        if is_shut_down srv then Ok tt w' else Blocked w'
    end.

(** [ShutdownableTCPServer((ADDRESS, PORT), GPSLocationHandler)],
    assigned to [httpd] when the constructor returns. *)
Definition ShutdownableTCPServer : M unit :=
  fun w =>
    if port_free w then
      Ok tt (emit (Bind ADDRESS PORT true)
               (set_httpd (Some {| shutdown_request := false; is_shut_down := false;
                                   socket_open := true |}) w))
    else Raise OSError (emit (Bind ADDRESS PORT false) w).

Definition server_close : M unit :=
  fun w =>
    match httpd w with
    | None => Ok tt w
    | Some srv =>
        Ok tt (emit Closed
                 (set_httpd (Some {| shutdown_request := shutdown_request srv;
                                     is_shut_down := is_shut_down srv;
                                     socket_open := false |}) w))
    end.

(** *** Requests *)

Record http_request : Type := {
  command : string;
  path : string;
  content_length : option string;   (* self.headers['Content-Length'] *)
  body : string                     (* what rfile yields after the headers *)
}.

Definition is_digit (c : ascii) : bool :=
  let n := nat_of_ascii c in ((48 <=? n) && (n <=? 57))%nat.

(** digits, single underscores allowed between them *)
Fixpoint int_digits (acc : Z) (s : string) : option Z :=
  match s with
  | EmptyString => Some acc
  | String c rest =>
      if is_digit c then int_digits (acc * 10 + Z.of_nat (nat_of_ascii c - 48))%Z rest
      else if Ascii.eqb c "_"%char then
        match rest with
        | String d _ => if is_digit d then int_digits acc rest else None
        | EmptyString => None
        end
      else None
  end.

Definition unsigned_int (s : string) : option Z :=
  match s with
  | String c _ => if is_digit c then int_digits 0 s else None
  | EmptyString => None
  end.

(** [int(s)] for a header value; [None] when it raises [ValueError]. *)
Definition py_int (s : string) : option Z :=
  match Weather.strip s with
  | String c rest =>
      if Ascii.eqb c "-"%char then option_map Z.opp (unsigned_int rest)
      else if Ascii.eqb c "+"%char then unsigned_int rest
      else unsigned_int (String c rest)
  | EmptyString => None
  end.

(** [sys.maxsize] of a 64-bit interpreter. *)
Definition SYS_MAXSIZE : Z := 2 ^ 63 - 1.

(** [rfile.read(n)] on a body the client has finished sending: the
    first [n] bytes, or all there are when there are fewer; everything
    up to the end for [n = -1].  A length below -1 raises ValueError
    and one beyond [sys.maxsize] OverflowError. *)
Definition rfile_read (n : Z) (bytes : string) : exn + string :=
  if (n <? -1)%Z then inl ValueError
  else if (SYS_MAXSIZE <? n)%Z then inl OverflowError
  else if (n <? 0)%Z then inr bytes
  else inr (String.substring 0 (Z.to_nat n) bytes).

(** [d.get(k)] on whatever [json.loads] returned. *)
Definition py_get (d : json) (k : string) : M json :=
  match d with
  | JObj fields => ret (dict_get k fields)
  | _ => raise AttributeError
  end.

Definition lift_option {A} (e : exn) (o : option A) : M A :=
  match o with
  | Some a => ret a
  | None => raise e
  end.

Definition lift_sum {A} (r : exn + A) : M A :=
  match r with
  | inr a => ret a
  | inl e => raise e
  end.

Section Handler.

(** [json.loads] of the decoded text and [json.dumps]; [None] when
    decoding or parsing raises. *)
Variable json_loads : string -> option json.
Variable json_dumps : json -> string.

Definition do_GET : M unit :=
  send (Head 200 (Some "text/html"));;
  send (Body HTML_PAGE).

Definition send_404 : M unit := send (Head 404 None).

(** Lines 94-107: write the record, shut the server down, answer. *)
Definition store_and_stop (latitude longitude : json) : M bool :=
  let coords := JObj [("latitude", latitude); ("longitude", longitude)] in
  write_file (json_dumps coords);;
  shutdown;;
  send (Head 200 (Some "application/json"));;
  send (Body (json_dumps (JObj [("status", JStr "success")])));;
  ret true.

(** The [try] block of [do_POST]; [true] when it ends in [return]. *)
Definition post_location (r : http_request) : M bool :=
  header <- lift_option TypeError (content_length r);;
  length <- lift_option ValueError (py_int header);;
  post_data <- lift_sum (rfile_read length (body r));;
  data <- lift_option ValueError (json_loads post_data);;
  latitude <- py_get data "latitude";;
  longitude <- py_get data "longitude";;
  if is_not_None latitude && is_not_None longitude
  then store_and_stop latitude longitude
  else ret false.

(** [except Exception: self.send_response(500); self.end_headers(); return] *)
Definition post_failed (e : exn) : M bool := send (Head 500 None);; ret true.

Definition do_POST (r : http_request) : M unit :=
  if String.eqb (path r) "/location_data" then
    returned <- catch (post_location r) post_failed;;
    if (returned : bool) then ret tt else send_404
  else send_404.

(** BaseHTTPRequestHandler.handle_one_request for a well-formed
    request line: [do_<command>] when the class has it, else 501.
    The class defines [do_GET] and [do_POST] and inherits [do_HEAD]. *)
Definition handle_one_request (r : http_request) : M unit :=
  if String.eqb (command r) "GET" then do_GET
  else if String.eqb (command r) "POST" then do_POST r
  else if String.eqb (command r) "HEAD" then send (StaticHead (path r))
  else send (ErrorPage 501).

(** The [while not self.__shutdown_request] loop of [serve_forever];
    [incoming] are the connections that will ever arrive.  An
    exception of the handler is reported and the loop goes on
    ([_handle_request_noblock]); with nothing left to arrive the
    loop polls for ever. *)
Fixpoint serve_loop (incoming : list http_request) : M unit :=
  fun w =>
    match httpd w with
    | None => Raise AttributeError w
    | Some srv =>
        if shutdown_request srv then Ok tt w
        else
          match incoming with
          | [] => Blocked w
          | r :: rest =>
              match handle_one_request r w with
              | Ok _ w' => serve_loop rest w'
              | Raise _ w' => serve_loop rest w'
              | Blocked w' => Blocked w'
              end
          end
    end.

Definition set_flags (request down : bool) : M unit :=
  fun w =>
    match httpd w with
    | None => Raise AttributeError w
    | Some srv =>
        Ok tt (set_httpd (Some {| shutdown_request := request;
                                  is_shut_down := down;
                                  socket_open := socket_open srv |}) w)
    end.

Definition clear_is_shut_down : M unit :=
  fun w =>
    match httpd w with
    | None => Raise AttributeError w
    | Some srv =>
        Ok tt (set_httpd (Some {| shutdown_request := shutdown_request srv;
                                  is_shut_down := false;
                                  socket_open := socket_open srv |}) w)
    end.

(** [serve_forever]: clear the event, loop, and in [finally] reset
    the request flag and set the event. *)
Definition serve_forever (incoming : list http_request) : M unit :=
  clear_is_shut_down;;
  finally (serve_loop incoming) (set_flags false true).

(** Lines 142-153: the read after [serve_forever] has returned. *)
Definition read_handoff : M (option (json * json)) :=
  present <- path_exists;;
  if (present : bool) then
    text <- read_file;;
    coords <- lift_option ValueError (json_loads text);;
    lat <- py_get coords "latitude";;
    lon <- py_get coords "longitude";;
    os_remove;;
    if is_not_None lat && is_not_None lon then ret (Some (lat, lon))
    else ret None
  else ret None.

(** [except Exception as e: print(...); return None] *)
Definition except_clause (e : exn) : M (option (json * json)) := ret None.

(** [finally: if httpd: httpd.server_close()] *)
Definition finally_clause : M unit :=
  fun w =>
    match httpd w with
    | Some _ => server_close w
    | None => Ok tt w
    end.

(** The post-shutdown read as the caller of [get_gps_location] sees
    it: the read under the [except] clause that covers it. *)
Definition post_shutdown_read : M (option (json * json)) :=
  catch read_handoff except_clause.

(** [get_gps_location()]; the [print]s are left out. *)
Definition get_gps_location (incoming : list http_request)
  : M (option (json * json)) :=
  present <- path_exists;;
  (if (present : bool) then os_remove else ret tt);;
  (fun w => Ok tt (set_httpd None w));;
  finally
    (catch (ShutdownableTCPServer;; serve_forever incoming;; read_handoff) except_clause)
    finally_clause.

End Handler.

(** *** Reading a run *)

(** What lines 86-93 make of a request to /location_data: an
    exception, a parsed object without both fields, or both fields. *)
Inductive verdict : Type :=
| Malformed (e : exn)
| Incomplete
| Accepted (latitude longitude : json).

Definition classify (json_loads : string -> option json) (r : http_request) : verdict :=
  match content_length r with
  | None => Malformed TypeError
  | Some header =>
      match py_int header with
      | None => Malformed ValueError
      | Some length =>
          match rfile_read length (body r) with
          | inl e => Malformed e
          | inr post_data =>
              match json_loads post_data with
              | None => Malformed ValueError
              | Some (JObj fields) =>
                  let latitude := dict_get "latitude" fields in
                  let longitude := dict_get "longitude" fields in
                  if is_not_None latitude && is_not_None longitude
                  then Accepted latitude longitude
                  else Incomplete
              | Some _ => Malformed AttributeError
              end
          end
      end
  end.






(** The status codes sent, in order. *)
Fixpoint statuses (l : list event) : list Z :=
  match l with
  | [] => []
  | Head status _ :: l' => status :: statuses l'
  | ErrorPage status :: l' => status :: statuses l'
  | _ :: l' => statuses l'
  end.

(** [after] is [before] with further events appended. *)
Definition extends (before after : list event) : Prop :=
  exists more, after = before ++ more.

(** Among the events added to [before], a record write is directly
    followed by a shutdown request. *)
Definition wrote_then_shutdown (before after : list event) : Prop :=
  exists pre c post, after = before ++ pre ++ Wrote c :: ShutdownRequested :: post.

(** What the pre-run cleanup (lines 132-133) leaves, when it does not
    raise. *)
Definition cleaned (w : world) : option world :=
  match temp_file w with
  | None => Some w
  | Some _ => if may_remove w then Some (emit Removed (set_temp_file None w)) else None
  end.

Definition propagates {A} (r : result A) : bool :=
  match r with Raise _ _ => true | _ => false end.

Definition blocks {A} (r : result A) : bool :=
  match r with Blocked _ => true | _ => false end.

(** *** Worlds and requests used as examples *)

(** A machine with nothing in the way: no record, every file
    operation allowed, the port free. *)
Definition clean_world : world :=
  {| temp_file := None; may_remove := true; may_read := true; may_write := true;
     port_free := true; httpd := None; log := [] |}.

(** The state in which a handler runs: the server built by
    [ShutdownableTCPServer], inside [serve_forever]. *)
Definition serving_world : world :=
  set_httpd (Some {| shutdown_request := false; is_shut_down := false;
                     socket_open := true |}) clean_world.


(** Port 8000 is taken. *)
Definition busy_world : world :=
  {| temp_file := None; may_remove := true; may_read := true; may_write := true;
     port_free := false; httpd := None; log := [] |}.

(** A record from an earlier run that the process may not delete. *)
Definition locked_world : world :=
  {| temp_file := Some "{}"; may_remove := false; may_read := true; may_write := true;
     port_free := true; httpd := None; log := [] |}.


Definition post (target payload : string) : http_request :=
  {| command := "POST"; path := target;
     content_length := Some (string_of_Z (Z.of_nat (String.length payload)));
     body := payload |}.

Definition bare_request (method target : string) : http_request :=
  {| command := method; path := target; content_length := None; body := "" |}.

Definition valid_payload : string := js "{'latitude':12.34,'longitude':56.78}".
Definition partial_payload : string := js "{'latitude':12.34}".
Definition text_payload : string := js "{'latitude':'abc','longitude':'xyz'}".

End Listener.

(** * Reading the requests of fetch_weather_details *)

Module WeatherReading.
Import Weather.

(** The two requests of lines 53-57, as they go out. *)
Definition weather_request (city : string) (timeout : Z) : request :=
  {| url := BASE_URL ++ "weather"; param_q := strip city;
     param_appid := Some EMBEDDED_KEY; param_units := "metric";
     req_timeout := timeout |}.

Definition forecast_request (city : string) (timeout : Z) : request :=
  {| url := BASE_URL ++ "forecast"; param_q := strip city;
     param_appid := Some EMBEDDED_KEY; param_units := "metric";
     req_timeout := timeout |}.

(** A reply that does not deliver a payload: an exception, or a status
    for which [raise_for_status()] raises. *)
Definition is_failure (r : reply) : bool :=
  match r with
  | Response status _ => is_error_status status
  | BadPayload _ _ => true
  | RequestException _ => true
  | OtherException _ => true
  end.

(** A failed reply that the forecast [try] absorbs: everything but an
    exception outside [RequestException]. *)
Definition is_absorbed (r : reply) : bool :=
  match r with
  | Response status _ => is_error_status status
  | BadPayload _ _ => true
  | RequestException _ => true
  | OtherException _ => false
  end.

(** A network whose forecast endpoint is down. *)
Definition forecast_down (r : request) : reply :=
  if String.eqb (url r) (BASE_URL ++ "forecast")
  then RequestException "timed out"
  else Response 200 sample_current.

(** A network that is down altogether. *)
Definition network_down (r : request) : reply := RequestException "unreachable".

(** Forecast entries that carry no pop. *)
Definition bare_entries : list json :=
  [JObj [("dt", JInt 1)]; JObj [("pop", JNull)]; JObj []].

End WeatherReading.

(** * Reading the traffic of the listener *)

Module Traffic.
Import Listener.

(** The requests that [do_POST] accepts: a POST to /location_data
    whose body passes lines 86-93. *)
Definition is_accepted_post (json_loads : string -> option json) (r : http_request)
  : bool :=
  String.eqb (command r) "POST"
  && String.eqb (path r) "/location_data"
  && match classify json_loads r with
     | Accepted _ _ => true
     | _ => false
     end.

(** Events a request handler can cause. *)
Definition is_handler_event (e : event) : bool :=
  match e with
  | Wrote _ | ShutdownRequested | Head _ _ | Body _ | ErrorPage _ | StaticHead _ => true
  | Removed | Bind _ _ _ | Closed => false
  end.

(** Events that only answer the client. *)
Definition is_answer (e : event) : bool :=
  match e with
  | Head _ _ | Body _ | ErrorPage _ | StaticHead _ => true
  | _ => false
  end.

(** [w'] differs from [w] at most in its log. *)
Definition same_but_log (w w' : world) : Prop :=
  temp_file w' = temp_file w
  /\ may_remove w' = may_remove w
  /\ may_read w' = may_read w
  /\ may_write w' = may_write w
  /\ port_free w' = port_free w
  /\ httpd w' = httpd w.

(** What the handling of one request can have done. *)
Definition handled (w w' : world) (srv : server) : Prop :=
  exists more srv',
    log w' = log w ++ more
    /\ forallb is_handler_event more = true
    /\ httpd w' = Some srv'
    /\ socket_open srv' = socket_open srv
    /\ is_shut_down srv' = is_shut_down srv
    /\ (temp_file w' = temp_file w
        \/ exists text, temp_file w' = Some text /\ In (Wrote text) more).

(** A serving machine on which the record cannot be written. *)
Definition readonly_world : world :=
  {| temp_file := None; may_remove := true; may_read := true; may_write := false;
     port_free := true;
     httpd := Some {| shutdown_request := false; is_shut_down := false;
                      socket_open := true |};
     log := [] |}.

(** A machine on which an earlier run left a record behind. *)
Definition stale_world : world := set_temp_file (Some "left over") clean_world.

Definition with_body (payload : string) (r : http_request) : http_request :=
  {| command := command r; path := path r; content_length := content_length r;
     body := payload |}.

End Traffic.

(** * output.py *)

Module Output.
Import Listener.
Local Open Scope py_scope.

(** What [requests.get(url, params, headers)] followed by
    [response.json()] does in [get_city_from_coords]. *)
Inductive geo_reply : Type :=
| GeoJson (data : json)
| GeoFails.                (* any exception of the request or of .json() *)

(** [data.get("address", {}).get(k)]; [None] for the AttributeError of
    a [data] or an address that is not a dict. *)
Definition address_field (data : json) (k : string) : option json :=
  match data with
  | JObj fields =>
      match match dict_lookup "address" fields with
            | Some v => v
            | None => JObj []
            end with
      | JObj address => Some (dict_get k address)
      | _ => None
      end
  | _ => None
  end.

Section Geocoding.

(** The reverse-geocoding service, asked for [(lat, lon)]. *)
Variable nominatim : json -> json -> geo_reply.

(** [get_city_from_coords(lat, lon)]: the [or] chain of lines 58-64
    under the [except Exception] of lines 68-70. *)
Definition get_city_from_coords (lat lon : json) : json :=
  match nominatim lat lon with
  | GeoFails => JStr "Unknown"
  | GeoJson data =>
      match address_field data "city" with
      | None => JStr "Unknown"
      | Some city =>
          if truthy city then city
          else
            match address_field data "town" with
            | None => JStr "Unknown"
            | Some town =>
                if truthy town then town
                else
                  match address_field data "village" with
                  | None => JStr "Unknown"
                  | Some village =>
                      if truthy village then village
                      else
                        match address_field data "state" with
                        | None => JStr "Unknown"
                        | Some state =>
                            if truthy state then state else JStr "Unknown"
                        end
                  end
            end
      end
  end.

End Geocoding.

Section Retrieve.

Variable json_loads : string -> option json.

(** The [try] block of [retrieve_coordinates_from_file]. *)
Definition read_previous : M (option (json * json)) :=
  text <- read_file;;
  data <- lift_option ValueError (json_loads text);;
  lat <- py_get data "latitude";;
  lon <- py_get data "longitude";;
  if is_not_None lat && is_not_None lon then ret (Some (lat, lon)) else ret None.

(** [retrieve_coordinates_from_file(path)], the world's file being the
    one at [path]; [(None, None)] is [None] here.  The [print]s are
    left out. *)
Definition retrieve_coordinates_from_file : M (option (json * json)) :=
  present <- path_exists;;
  if (present : bool) then catch read_previous (fun _ => ret None)
  else ret None.

End Retrieve.

(** What the script leaves on the terminal or how it ends. *)
Inductive ending : Type :=
| Printed (lines : list string)
| Crashed (exception : string)
| NeverReturns.

(** The lines [get_weather_and_print] prints for a report. *)
Definition weather_lines (r : Weather.report) : list string :=
  match r with
  | Weather.Error message => [String "010"%char "❌ Error: " ++ message]%string
  | Weather.Report city temperature humidity wind_speed rain =>
      [(String "010"%char "🌤 Weather Report for " ++ city ++ ":")%string;
       ("• Temperature: " ++ temperature)%string;
       ("• Humidity: " ++ humidity)%string;
       ("• Wind Speed: " ++ wind_speed)%string;
       ("• Rain Probability: " ++ rain)%string]
  end.

Definition exn_name (e : exn) : string :=
  match e with
  | FileNotFoundError => "FileNotFoundError"
  | PermissionError => "PermissionError"
  | OSError => "OSError"
  | ValueError => "ValueError"
  | TypeError => "TypeError"
  | AttributeError => "AttributeError"
  | OverflowError => "OverflowError"
  end.

Section Main.

(** Whether [from gps_server import get_gps_location] (line 29)
    succeeds: the package's [__init__.py] is not among the sources, and
    without one that exports the name the import raises ImportError. *)
Variable gps_server_exports : bool.
Variable json_loads : string -> option json.
Variable json_dumps : json -> string.
Variable nominatim : json -> json -> geo_reply.
Variable environ : string -> option string.
Variable requests_get : Weather.request -> Weather.reply.
Variable status_error_text : Weather.request -> Z -> string.
Variable str_format : string -> json -> option string.
Variable float_of_str : string -> option PyFloat.float.

(** [fetch_weather_details(city)] for whatever [get_city_from_coords]
    returned: line 45 of weather.py turns a value that is not a [str]
    away. *)
Definition fetch_for (city : json) : list Weather.request * Weather.outcome :=
  match city with
  | JStr name =>
      Weather.fetch_weather_details environ requests_get status_error_text
        str_format float_of_str name None Weather.DEFAULT_TIMEOUT
  | _ => ([], Weather.Returned (Weather.Error "Invalid city parameter."))
  end.

(** [get_weather_and_print(city)] *)
Definition get_weather_and_print (city : json) : ending :=
  match snd (fetch_for city) with
  | Weather.Returned r => Printed (weather_lines r)
  | Weather.Raised text => Crashed text
  end.

(** The two [__main__] blocks, from line 110 on.  [old] is the file at
    [file_path] when the script starts, [w] the machine
    [get_gps_location] runs on and [incoming] what the browser sends.
    Only the lines of [get_weather_and_print] are kept of what is
    printed. *)
Definition run_blocks (old w : world) (incoming : list http_request) : ending :=
  match retrieve_coordinates_from_file json_loads old with
  | Ok (Some (old_lat, old_lon)) _ =>
      get_weather_and_print (get_city_from_coords nominatim old_lat old_lon)
  | Ok None _ =>
      match get_gps_location json_loads json_dumps incoming w with
      | Ok (Some (lat, lon)) _ =>
          get_weather_and_print (get_city_from_coords nominatim lat lon)
      | Ok None _ => Crashed "NameError"     (* [city] was never assigned *)
      | Raise e _ => Crashed (exn_name e)
      | Blocked _ => NeverReturns
      end
  | Raise e _ => Crashed (exn_name e)
  | Blocked _ => NeverReturns
  end.

(** output.py run as a script: the imports of lines 7 and 29, then the
    two blocks. *)
Definition main (old w : world) (incoming : list http_request) : ending :=
  if gps_server_exports then run_blocks old w incoming
  else Crashed "ImportError".

End Main.

(** *** Sample data *)

Definition sample_address : json :=
  JObj [("address", JObj [("city", JStr ""); ("town", JStr "Pune");
                          ("state", JStr "Maharashtra")])].

Definition sample_nominatim (lat lon : json) : geo_reply := GeoJson sample_address.

Definition failing_nominatim (lat lon : json) : geo_reply := GeoFails.

(** A machine on which an earlier run left a valid record. *)
Definition record_world : world :=
  set_temp_file (Some (js "{'latitude': 12.34, 'longitude': 56.78}")) clean_world.

End Output.

(** * Properties of weather.py *)

Module WeatherFacts.
Import Weather.

Lemma Qltb_true (a b : Q) : Qltb a b = true <-> (a < b)%Q.
Proof.
  unfold Qltb. rewrite negb_true_iff. split; intro H.
  - apply Qnot_le_lt. intro L. apply Qle_bool_iff in L. congruence.
  - destruct (Qle_bool b a) eqn:E; [|reflexivity].
    apply Qle_bool_iff in E. exfalso. exact (Qlt_not_le _ _ H E).
Qed.

Lemma Qltb_false (a b : Q) : Qltb a b = false <-> (b <= a)%Q.
Proof.
  unfold Qltb. rewrite negb_false_iff. apply Qle_bool_iff.
Qed.












(** C7 fails on the code: whatever key the caller passes and whatever
    the environment holds, every request of [fetch_weather_details]
    carries the key written on line 48; with [--api-key CLIKEY] and
    OPENWEATHER_API_KEY set, both requests go out with that literal. *)
Theorem fetch_weather_details_ignores_api_key :
  (forall environ get text fmt fos city api_key timeout,
      Forall (fun r => param_appid r = Some EMBEDDED_KEY)
             (fst (fetch_weather_details environ get text fmt fos city api_key timeout)))
  /\ map param_appid
         (fst (_cli_main sample_environ sample_get sample_status_text sample_format
                 sample_float "London" (Some "CLIKEY")))
     = [Some EMBEDDED_KEY; Some EMBEDDED_KEY]
  /\ Some EMBEDDED_KEY <> Some "CLIKEY"
  /\ Some EMBEDDED_KEY <> sample_environ "OPENWEATHER_API_KEY".
Proof.
  split; [|split; [reflexivity|split; discriminate]].
  intros environ get text fmt fos city api_key timeout.
  unfold fetch_weather_details.
  destruct (String.eqb city ""); [constructor|].
  change (_get_api_key environ (Some EMBEDDED_KEY)) with (Some EMBEDDED_KEY).
  cbv zeta.
  repeat match goal with
         | |- context [match ?x with _ => _ end] => destruct x
         end;
    simpl; repeat constructor.
Qed.

End WeatherFacts.

(** * Properties of gps_server/listener.py *)

Module ListenerFacts.
Import Listener.
Local Open Scope py_scope.

Lemma extends_refl (l : list event) : extends l l.
Proof. exists []. symmetry. apply app_nil_r. Qed.

Lemma extends_trans (a b c : list event) : extends a b -> extends b c -> extends a c.
Proof.
  intros [m1 ->] [m2 ->]. exists (m1 ++ m2). symmetry. apply app_assoc.
Qed.

Lemma wrote_then_shutdown_later (a b c : list event) :
  wrote_then_shutdown a b -> extends b c -> wrote_then_shutdown a c.
Proof.
  intros (pre & x & post & ->) [more ->].
  exists pre, x, (post ++ more).
  rewrite <- !app_assoc. reflexivity.
Qed.


Section Facts.

Variable json_loads : string -> option json.
Variable json_dumps : json -> string.

Local Abbreviation do_POST := (do_POST json_loads json_dumps).
Local Abbreviation store_and_stop := (store_and_stop json_dumps).
Local Abbreviation handle_one_request := (handle_one_request json_loads json_dumps).
Local Abbreviation serve_loop := (serve_loop json_loads json_dumps).
Local Abbreviation serve_forever := (serve_forever json_loads json_dumps).
Local Abbreviation read_handoff := (read_handoff json_loads).
Local Abbreviation post_shutdown_read := (post_shutdown_read json_loads).
Local Abbreviation get_gps_location := (get_gps_location json_loads json_dumps).

(** [do_POST] outside /location_data. *)
Lemma do_POST_other_path (r : http_request) (w : world) :
  path r <> "/location_data" ->
  do_POST r w = Ok tt (emit (Head 404 None) w).
Proof.
  intro H. unfold Listener.do_POST.
  destruct (String.eqb_spec (path r) "/location_data") as [E|E]; [contradiction|].
  reflexivity.
Qed.

(** [do_POST] on /location_data, by what lines 86-93 find. *)
Lemma do_POST_location (r : http_request) (w : world) :
  path r = "/location_data" ->
  do_POST r w =
  match classify json_loads r with
  | Malformed _ => Ok tt (emit (Head 500 None) w)
  | Incomplete => Ok tt (emit (Head 404 None) w)
  | Accepted latitude longitude =>
      (returned <- catch (store_and_stop latitude longitude) post_failed;;
       if (returned : bool) then ret tt else send_404) w
  end.
Proof.
  intro H. unfold Listener.do_POST, post_location, classify.
  rewrite H. change (String.eqb "/location_data" "/location_data") with true.
  cbv beta iota delta [bind catch lift_option lift_sum ret raise py_get send send_404
                       post_failed].
  destruct (content_length r) as [header|]; [|reflexivity].
  destruct (py_int header) as [n|]; [|reflexivity].
  destruct (rfile_read n (body r)) as [e|post_data]; [reflexivity|].
  destruct (json_loads post_data) as [data|]; [|reflexivity].
  destruct data; try reflexivity.
  destruct (is_not_None (dict_get "latitude" fields)
            && is_not_None (dict_get "longitude" fields)); reflexivity.
Qed.

(** The accepted branch under the [except] clause, by what the world
    allows. *)
Lemma accepted_branch (latitude longitude : json) (w : world) :
  let text := json_dumps (JObj [("latitude", latitude); ("longitude", longitude)]) in
  let ok := json_dumps (JObj [("status", JStr "success")]) in
  let written := emit (Wrote text) (set_temp_file (Some text) w) in
  (returned <- catch (store_and_stop latitude longitude) post_failed;;
   if (returned : bool) then ret tt else send_404) w =
  if may_write w then
    match httpd w with
    | None => Ok tt (emit (Head 500 None) written)
    | Some srv =>
        let stopping :=
          emit ShutdownRequested
            (set_httpd (Some {| shutdown_request := true;
                                is_shut_down := is_shut_down srv;
                                socket_open := socket_open srv |}) written) in
        if is_shut_down srv
        then Ok tt (emit (Body ok) (emit (Head 200 (Some "application/json")) stopping))
        else Blocked stopping
    end
  else Ok tt (emit (Head 500 None) w).
Proof.
  cbv beta iota zeta
      delta [bind catch ret raise send send_404 post_failed Listener.store_and_stop
             write_file shutdown].
  destruct (may_write w); [|reflexivity].
  cbn [httpd emit set_temp_file].
  destruct (httpd w) as [srv|]; [|reflexivity].
  destruct (is_shut_down srv); reflexivity.
Qed.

Ltac finished H :=
  destruct H as [H|[? H]]; inversion H; subst; clear H.

Ltac log_grows :=
  cbn [log emit set_temp_file set_httpd httpd]; rewrite <- ?app_assoc;
  eexists; reflexivity.

(** A request handled to its end only adds events, and leaves the
    server object as it was unless the record was written and
    [shutdown] was entered, and returned. *)
Lemma handle_step (r : http_request) (w w' : world) (srv : server) :
  httpd w = Some srv ->
  (handle_one_request r w = Ok tt w' \/ exists e, handle_one_request r w = Raise e w') ->
  extends (log w) (log w')
  /\ (httpd w' = Some srv
      \/ (is_shut_down srv = true /\ wrote_then_shutdown (log w) (log w'))).
Proof.
  intros Hsrv H. unfold Listener.handle_one_request in H.
  destruct (String.eqb (command r) "GET").
  { finished H. split; [log_grows|left; exact Hsrv]. }
  destruct (String.eqb (command r) "POST").
  2:{ destruct (String.eqb (command r) "HEAD"); finished H;
      (split; [log_grows|left; exact Hsrv]). }
  destruct (String.eqb_spec (path r) "/location_data") as [E|E].
  2:{ rewrite (do_POST_other_path r w E) in H. finished H.
      split; [log_grows|left; exact Hsrv]. }
  rewrite (do_POST_location r w E) in H.
  destruct (classify json_loads r) as [e| |latitude longitude].
  1,2: finished H; (split; [log_grows|left; exact Hsrv]).
  rewrite accepted_branch in H. cbv zeta in H.
  destruct (may_write w).
  2:{ finished H. split; [log_grows|left; exact Hsrv]. }
  rewrite Hsrv in H. destruct (is_shut_down srv) eqn:Hdown.
  2:{ destruct H as [H|[? H]]; discriminate H. }
  finished H. split; [log_grows|]. right. split; [reflexivity|].
  exists [], (json_dumps (JObj [("latitude", latitude); ("longitude", longitude)])).
  cbn [log emit set_temp_file set_httpd httpd]. rewrite <- !app_assoc.
  eexists. reflexivity.
Qed.

(** Inside [serve_forever] the loop never ends: a handler that enters
    [shutdown] waits for the loop it is running in. *)
Lemma serve_loop_stuck (incoming : list http_request) :
  forall w srv,
    httpd w = Some srv -> shutdown_request srv = false -> is_shut_down srv = false ->
    blocks (serve_loop incoming w) = true.
Proof.
  induction incoming as [|r rest IH]; intros w srv Hsrv Hreq Hdown; simpl;
    rewrite Hsrv, Hreq; [reflexivity|].
  destruct (handle_one_request r w) as [[] w1|e w1|w1] eqn:Hr; [| |reflexivity].
  - destruct (handle_step r w w1 srv Hsrv (or_introl Hr)) as [_ [Hsame|[Habs _]]];
      [|congruence].
    apply (IH w1 srv Hsame Hreq Hdown).
  - destruct (handle_step r w w1 srv Hsrv (or_intror (ex_intro _ e Hr)))
      as [_ [Hsame|[Habs _]]]; [|congruence].
    apply (IH w1 srv Hsame Hreq Hdown).
Qed.

(** [get_gps_location] ends in one of three ways: the cleanup raises,
    the bind fails and [None] is returned, or the call never returns. *)
Lemma get_gps_location_cases (incoming : list http_request) (w : world) :
  match cleaned w with
  | None => get_gps_location incoming w = Raise PermissionError w
  | Some w1 =>
      if port_free w
      then blocks (get_gps_location incoming w) = true
      else get_gps_location incoming w
           = Ok None (emit (Bind ADDRESS PORT false) (set_httpd None w1))
  end.
Proof.
  unfold cleaned, Listener.get_gps_location.
  assert (Run : forall w1,
             port_free w1 = port_free w ->
             if port_free w
             then blocks (finally
                            (catch (ShutdownableTCPServer;; serve_forever incoming;; read_handoff)
                                   (except_clause))
                            finally_clause (set_httpd None w1)) = true
             else finally
                    (catch (ShutdownableTCPServer;; serve_forever incoming;; read_handoff)
                           (except_clause))
                    finally_clause (set_httpd None w1)
                  = Ok None (emit (Bind ADDRESS PORT false) (set_httpd None w1))).
  { intros w1 Hport. destruct (port_free w) eqn:Hfree.
    - unfold finally, catch, bind at 1, ShutdownableTCPServer.
      cbn [port_free set_httpd]. rewrite Hport.
      unfold Listener.serve_forever, bind at 1 2, clear_is_shut_down.
      cbn [httpd emit set_httpd shutdown_request is_shut_down socket_open].
      unfold finally.
      match goal with
      | |- context [Listener.serve_loop _ _ incoming ?x] =>
          pose proof (serve_loop_stuck incoming x _ eq_refl eq_refl eq_refl) as Hstuck;
          destruct (Listener.serve_loop json_loads json_dumps incoming x);
          try discriminate Hstuck
      end.
      reflexivity.
    - unfold finally, catch, bind at 1, ShutdownableTCPServer.
      cbn [port_free set_httpd]. rewrite Hport. reflexivity. }
  cbv beta iota delta [bind path_exists os_remove ret].
  destruct (temp_file w) as [content|] eqn:Hfile; cbv beta iota; rewrite ?Hfile.
  - destruct (may_remove w); [|reflexivity].
    apply (Run (emit Removed (set_temp_file None w))). reflexivity.
  - apply (Run w). reflexivity.
Qed.

(** [get_gps_location] never hands coordinates to its caller. *)
Lemma get_gps_location_returns_no_coordinates (incoming : list http_request)
    (w w' : world) (pair : json * json) :
  get_gps_location incoming w <> Ok (Some pair) w'.
Proof.
  intro H. pose proof (get_gps_location_cases incoming w) as C.
  destruct (cleaned w) as [w1|]; [|congruence].
  destruct (port_free w); [|congruence].
  rewrite H in C. discriminate C.
Qed.

(** A POST to /location_data that is not accepted is answered 500 or
    404 with no body, and changes nothing else. *)
Lemma rejected_post (r : http_request) (w : world) :
  path r = "/location_data" ->
  (forall latitude longitude, classify json_loads r <> Accepted latitude longitude) ->
  exists status, (status = 500%Z \/ status = 404%Z)
                 /\ do_POST r w = Ok tt (emit (Head status None) w).
Proof.
  intros Hpath Hrej. rewrite (do_POST_location r w Hpath).
  destruct (classify json_loads r) as [e| |latitude longitude].
  - exists 500%Z. split; [left|]; reflexivity.
  - exists 404%Z. split; [right|]; reflexivity.
  - exfalso. exact (Hrej latitude longitude eq_refl).
Qed.

(** The post-shutdown read, case by case. *)
Lemma post_shutdown_read_cases (w : world) :
  post_shutdown_read w =
  match temp_file w with
  | None => Ok None w
  | Some text =>
      if may_read w then
        match json_loads text with
        | Some (JObj fields) =>
            if may_remove w then
              Ok (if is_not_None (dict_get "latitude" fields)
                     && is_not_None (dict_get "longitude" fields)
                  then Some (dict_get "latitude" fields, dict_get "longitude" fields)
                  else None)
                 (emit Removed (set_temp_file None w))
            else Ok None w
        | _ => Ok None w
        end
      else Ok None w
  end.
Proof.
  unfold Listener.post_shutdown_read, Listener.read_handoff.
  cbv beta iota delta [bind catch lift_option ret raise py_get path_exists read_file
                       os_remove except_clause].
  destruct (temp_file w) as [text|] eqn:Hfile; [|reflexivity].
  cbv beta iota. rewrite ?Hfile.
  destruct (may_read w); [|reflexivity].
  destruct (json_loads text) as [data|]; [|reflexivity].
  destruct data; try reflexivity.
  cbv beta iota. rewrite ?Hfile.
  destruct (may_remove w); [|reflexivity].
  destruct (is_not_None (dict_get "latitude" fields)
            && is_not_None (dict_get "longitude" fields)); reflexivity.
Qed.

(** The handoff channel itself: a record written by [do_POST] and read
    back by the post-shutdown read yields the two values and is
    removed, for any codec that reads back what it wrote. *)
Lemma written_record_reads_back (latitude longitude : json) (w : world) :
  let coords := JObj [("latitude", latitude); ("longitude", longitude)] in
  json_loads (json_dumps coords) = Some coords ->
  is_not_None latitude = true -> is_not_None longitude = true ->
  may_read w = true -> may_remove w = true ->
  post_shutdown_read (set_temp_file (Some (json_dumps coords)) w)
  = Ok (Some (latitude, longitude))
       (emit Removed (set_temp_file None (set_temp_file (Some (json_dumps coords)) w))).
Proof.
  intros coords Hcodec Hlat Hlon Hread Hremove.
  rewrite post_shutdown_read_cases.
  cbn [temp_file may_read may_remove set_temp_file].
  rewrite Hread, Hcodec, Hremove. subst coords. cbv iota.
  change (dict_get "latitude" [("latitude", latitude); ("longitude", longitude)])
    with latitude.
  change (dict_get "longitude" [("latitude", latitude); ("longitude", longitude)])
    with longitude.
  rewrite Hlat, Hlon. reflexivity.
Qed.

(** C4, as the code has it: when the bind fails, [get_gps_location]
    catches the failure and returns [None] at once; one bind was tried,
    on the fixed address and port, no server object exists and no
    record is left. *)
Theorem bind_failure_returns_None (incoming : list http_request) (w w1 : world) :
  port_free w = false ->
  cleaned w = Some w1 ->
  let w' := emit (Bind ADDRESS PORT false) (set_httpd None w1) in
  get_gps_location incoming w = Ok None w'
  /\ temp_file w' = None
  /\ httpd w' = None
  /\ extends (log w) (log w1)
  /\ log w' = log w1 ++ [Bind ADDRESS PORT false].
Proof.
  intros Hport Hclean w'. pose proof (get_gps_location_cases incoming w) as C.
  rewrite Hclean, Hport in C. split; [exact C|].
  unfold cleaned in Hclean. subst w'.
  destruct (temp_file w) eqn:Hfile.
  - destruct (may_remove w); [|discriminate Hclean].
    inversion Hclean; subst. repeat split; try reflexivity. log_grows.
  - inversion Hclean; subst. repeat split; try assumption; try reflexivity.
    apply extends_refl.
Qed.

(** C8, as the code has it: a POST to any path other than
    /location_data is answered 404 with no body; a request whose method
    is none of GET, POST and HEAD, PUT and DELETE among them, is
    answered 501 by the base handler whatever its path. *)
Theorem other_paths_404_other_methods_501 (r : http_request) (w : world) :
  (command r = "POST" -> path r <> "/location_data" ->
   handle_one_request r w = Ok tt (emit (Head 404 None) w))
  /\ (command r <> "GET" -> command r <> "POST" -> command r <> "HEAD" ->
      handle_one_request r w = Ok tt (emit (ErrorPage 501) w))
  /\ (command r = "PUT" \/ command r = "DELETE" ->
      handle_one_request r w = Ok tt (emit (ErrorPage 501) w)).
Proof.
  unfold Listener.handle_one_request. repeat split.
  - intros Hc Hp. rewrite Hc. cbn [String.eqb Ascii.eqb Bool.eqb].
    apply do_POST_other_path. exact Hp.
  - intros Hg Hp Hh.
    destruct (String.eqb_spec (command r) "GET"); [contradiction|].
    destruct (String.eqb_spec (command r) "POST"); [contradiction|].
    destruct (String.eqb_spec (command r) "HEAD"); [contradiction|].
    reflexivity.
  - intros [Hc|Hc]; rewrite Hc; reflexivity.
Qed.

End Facts.

(** ** Runs on literal payloads *)

(** C1 fails on the code: after a POST of
    {"latitude":12.34,"longitude":56.78} the record is written and the
    handler enters [shutdown], which waits for the serve loop it runs
    in; no response is sent, [get_gps_location] does not return and
    the record stays.  No sequence of requests makes
    [get_gps_location] return a pair. *)
Theorem valid_post_blocks_get_gps_location :
  let run := get_gps_location MiniJson.loads MiniJson.dumps
               [post "/location_data" valid_payload] clean_world in
  classify MiniJson.loads (post "/location_data" valid_payload)
    = Accepted (JFloat 12.34) (JFloat 56.78)
  /\ blocks run = true
  /\ temp_file (final_world run) = Some (js "{'latitude': 12.34, 'longitude': 56.78}")
  /\ log (final_world run)
     = [Bind ADDRESS PORT true;
        Wrote (js "{'latitude': 12.34, 'longitude': 56.78}");
        ShutdownRequested]
  /\ statuses (log (final_world run)) = []
  /\ (forall json_loads json_dumps incoming w w' pair,
         get_gps_location json_loads json_dumps incoming w <> Ok (Some pair) w').
Proof.
  split; [|split; [|split; [|split; [|split]]]]; try (vm_compute; reflexivity).
  intros json_loads json_dumps incoming w w' pair.
  apply get_gps_location_returns_no_coordinates.
Qed.


(** C3 fails on the code: a POST of {"latitude":12.34} parses, is found
    incomplete, and falls through to the 404 of the unknown paths; the
    server keeps listening and no record is written. *)
Theorem post_without_longitude_gets_404 :
  classify MiniJson.loads (post "/location_data" partial_payload) = Incomplete
  /\ do_POST MiniJson.loads MiniJson.dumps
       (post "/location_data" partial_payload) serving_world
     = Ok tt (emit (Head 404 None) serving_world)
  /\ statuses (log (emit (Head 404 None) serving_world)) = [404%Z]
  /\ temp_file (emit (Head 404 None) serving_world) = None
  /\ httpd (emit (Head 404 None) serving_world) = httpd serving_world.
Proof.
  vm_compute. repeat split; reflexivity.
Qed.

(** C4 as worded fails: with the port taken, [get_gps_location]
    returns [None] instead of raising. *)
Lemma bind_failure_is_not_propagated :
  propagates (get_gps_location MiniJson.loads MiniJson.dumps [] busy_world) = false
  /\ get_gps_location MiniJson.loads MiniJson.dumps [] busy_world
     = Ok None (emit (Bind ADDRESS PORT false) busy_world).
Proof.
  vm_compute. split; reflexivity.
Qed.

(** The bind theorem with port 8000 taken. *)
Lemma bind_failure_returns_None_witness :
  get_gps_location MiniJson.loads MiniJson.dumps [] busy_world
  = Ok None (emit (Bind ADDRESS PORT false) (set_httpd None busy_world)).
Proof.
  exact (proj1 (bind_failure_returns_None MiniJson.loads MiniJson.dumps
                  [] busy_world busy_world eq_refl eq_refl)).
Defined.


(** C8 as worded fails: PUT and DELETE are answered 501, not 404. *)
Lemma put_and_delete_get_501 :
  statuses (log (final_world
                   (handle_one_request MiniJson.loads MiniJson.dumps
                      (bare_request "PUT" "/location_data") serving_world)))
    = [501%Z]
  /\ statuses (log (final_world
                      (handle_one_request MiniJson.loads MiniJson.dumps
                         (bare_request "DELETE" "/anything") serving_world)))
     = [501%Z]
  /\ [501%Z] <> [404%Z].
Proof.
  vm_compute. repeat split; try reflexivity. discriminate.
Qed.

(** The 404/501 theorem at POST /nonexistent and at PUT /location_data. *)
Lemma other_paths_404_other_methods_501_witness :
  handle_one_request MiniJson.loads MiniJson.dumps
    (post "/nonexistent" valid_payload) serving_world
  = Ok tt (emit (Head 404 None) serving_world)
  /\ handle_one_request MiniJson.loads MiniJson.dumps
       (bare_request "PUT" "/location_data") serving_world
     = Ok tt (emit (ErrorPage 501) serving_world)
  /\ handle_one_request MiniJson.loads MiniJson.dumps
       (bare_request "DELETE" "/anything") serving_world
     = Ok tt (emit (ErrorPage 501) serving_world).
Proof.
  split; [|split].
  - apply (proj1 (other_paths_404_other_methods_501 MiniJson.loads MiniJson.dumps
                    (post "/nonexistent" valid_payload) serving_world));
      [reflexivity|discriminate].
  - apply (proj2 (proj2 (other_paths_404_other_methods_501 MiniJson.loads MiniJson.dumps
                           (bare_request "PUT" "/location_data") serving_world))).
    left. reflexivity.
  - apply (proj1 (proj2 (other_paths_404_other_methods_501 MiniJson.loads MiniJson.dumps
                           (bare_request "DELETE" "/anything") serving_world)));
      discriminate.
Defined.

(** C9 fails on the code at its last two steps: the validation does
    accept {"latitude":"abc","longitude":"xyz"} and the record is
    written with the two strings, and the read would hand them back as
    they are; but the handler then waits in [shutdown], so no 200 is
    sent and [get_gps_location] does not return. *)
Theorem text_coordinates_are_stored_then_blocked :
  let run := get_gps_location MiniJson.loads MiniJson.dumps
               [post "/location_data" text_payload] clean_world in
  classify MiniJson.loads (post "/location_data" text_payload)
    = Accepted (JStr "abc") (JStr "xyz")
  /\ blocks run = true
  /\ temp_file (final_world run) = Some (js "{'latitude': 'abc', 'longitude': 'xyz'}")
  /\ statuses (log (final_world run)) = []
  /\ post_shutdown_read MiniJson.loads
       (set_temp_file (temp_file (final_world run)) clean_world)
     = Ok (Some (JStr "abc", JStr "xyz")) (emit Removed clean_world).
Proof.
  vm_compute. repeat split; reflexivity.
Qed.

(** C10 fails on the code: the cleanup on lines 132-133 runs before the
    [try]; when a record is there and [os.remove] raises, the exception
    leaves [get_gps_location], whatever would have come next. *)
Theorem cleanup_failure_propagates :
  (forall json_loads json_dumps incoming,
      get_gps_location json_loads json_dumps incoming locked_world
      = Raise PermissionError locked_world)
  /\ propagates (get_gps_location MiniJson.loads MiniJson.dumps [] locked_world) = true.
Proof.
  split; [|vm_compute; reflexivity].
  intros json_loads json_dumps incoming.
  exact (get_gps_location_cases json_loads json_dumps incoming locked_world).
Qed.

End ListenerFacts.

(** * Further properties of the listener *)

Module TrafficFacts.
Import Listener Traffic.
Local Open Scope py_scope.

Ltac split_all := repeat match goal with |- _ /\ _ => split end.

Ltac unchanged :=
  unfold same_but_log;
  cbn [temp_file may_remove may_read may_write port_free httpd emit];
  split_all; reflexivity.

Section Facts.

Variable json_loads : string -> option json.
Variable json_dumps : json -> string.

Local Abbreviation do_POST := (do_POST json_loads json_dumps).
Local Abbreviation handle_one_request := (handle_one_request json_loads json_dumps).
Local Abbreviation serve_loop := (serve_loop json_loads json_dumps).
Local Abbreviation serve_forever := (serve_forever json_loads json_dumps).
Local Abbreviation post_shutdown_read := (post_shutdown_read json_loads).
Local Abbreviation get_gps_location := (get_gps_location json_loads json_dumps).
Local Abbreviation is_accepted_post := (is_accepted_post json_loads).



(** A request that is not an accepted POST is answered and changes
    nothing but the log. *)
Lemma handle_unaccepted (r : http_request) (w : world) :
  is_accepted_post r = false ->
  exists w' answer,
    handle_one_request r w = Ok tt w'
    /\ same_but_log w w'
    /\ log w' = log w ++ answer
    /\ answer <> []
    /\ forallb is_answer answer = true.
Proof.
  intro Hno. unfold Traffic.is_accepted_post in Hno.
  unfold Listener.handle_one_request.
  destruct (String.eqb (command r) "GET").
  { eexists. exists [Head 200 (Some "text/html"); Body HTML_PAGE].
    split; [reflexivity|]. split; [unchanged|].
    cbn [log emit]. rewrite <- app_assoc. split_all; try reflexivity. discriminate. }
  destruct (String.eqb (command r) "POST").
  2:{ destruct (String.eqb (command r) "HEAD");
      eexists; eexists; (split; [reflexivity|]);
      (split; [unchanged|]); cbn [log emit];
      split_all; try reflexivity; discriminate. }
  destruct (String.eqb_spec (path r) "/location_data") as [E|E].
  2:{ rewrite (ListenerFacts.do_POST_other_path json_loads json_dumps r w E).
      eexists; eexists; (split; [reflexivity|]);
      (split; [unchanged|]); cbn [log emit];
      split_all; try reflexivity; discriminate. }
  rewrite (ListenerFacts.do_POST_location json_loads json_dumps r w E).
  cbn [andb] in Hno.
  destruct (classify json_loads r); try discriminate Hno;
    eexists; eexists; (split; [reflexivity|]);
    (split; [unchanged|]); cbn [log emit];
    split_all; try reflexivity; discriminate.
Qed.

(** What an accepted POST does, by what the machine allows. *)
Lemma handle_accepted (r : http_request) (w : world) :
  is_accepted_post r = true ->
  exists latitude longitude,
    classify json_loads r = Accepted latitude longitude
    /\ handle_one_request r w
       = (returned <- catch (store_and_stop json_dumps latitude longitude) post_failed;;
          if (returned : bool) then ret tt else send_404) w.
Proof.
  intro Hyes. unfold Traffic.is_accepted_post in Hyes.
  apply andb_true_iff in Hyes. destruct Hyes as [Hyes Hclass].
  apply andb_true_iff in Hyes. destruct Hyes as [Hcmd Hpath].
  apply String.eqb_eq in Hcmd. apply String.eqb_eq in Hpath.
  unfold Listener.handle_one_request. rewrite Hcmd.
  cbn [String.eqb Ascii.eqb Bool.eqb].
  rewrite (ListenerFacts.do_POST_location json_loads json_dumps r w Hpath).
  destruct (classify json_loads r) as [e| |latitude longitude]; try discriminate Hclass.
  exists latitude, longitude. split; reflexivity.
Qed.

Lemma answers_are_handler_events (l : list event) :
  forallb is_answer l = true -> forallb is_handler_event l = true.
Proof.
  induction l as [|e l IH]; [reflexivity|]. simpl.
  intro H. apply andb_true_iff in H. destruct H as [He Hl].
  rewrite (IH Hl). destruct e; try discriminate He; reflexivity.
Qed.



(** X3.  When the record cannot be written, an accepted POST is
    answered 500: the [except] clause covers the write, nothing is
    stored and no shutdown is requested. *)
Theorem failed_write_is_answered_500 (r : http_request) (w : world) :
  is_accepted_post r = true ->
  may_write w = false ->
  handle_one_request r w = Ok tt (emit (Head 500 None) w).
Proof.
  intros Hyes Hwrite.
  destruct (handle_accepted r w Hyes) as (latitude & longitude & _ & Hrun).
  rewrite Hrun, (ListenerFacts.accepted_branch json_dumps). cbv zeta.
  rewrite Hwrite. reflexivity.
Qed.


Lemma substring_prefix (b e : string) :
  String.substring 0 (String.length b) (b ++ e)%string = b.
Proof.
  induction b as [|c b IH]; simpl.
  - destruct e; reflexivity.
  - rewrite IH. reflexivity.
Qed.

Lemma substring_whole (b : string) : String.substring 0 (String.length b) b = b.
Proof.
  induction b as [|c b IH]; simpl; [reflexivity|]. rewrite IH. reflexivity.
Qed.

(** X5.  Only the first Content-Length bytes of the body are parsed:
    whatever follows them has no effect on what [do_POST] does. *)
Theorem bytes_after_content_length_are_ignored
    (r : http_request) (header extra : string) (w : world) :
  content_length r = Some header ->
  py_int header = Some (Z.of_nat (String.length (body r))) ->
  classify json_loads (with_body (body r ++ extra) r) = classify json_loads r
  /\ do_POST (with_body (body r ++ extra) r) w = do_POST r w.
Proof.
  intros Hhead Hint.
  assert (Hclass : classify json_loads (with_body (body r ++ extra) r)
                   = classify json_loads r).
  { unfold classify, with_body. cbn [content_length body].
    rewrite Hhead, Hint. unfold rfile_read.
    destruct (Z.ltb_spec (Z.of_nat (String.length (body r))) (-1)) as [Hneg|_]; [lia|].
    destruct (SYS_MAXSIZE <? Z.of_nat (String.length (body r)))%Z; [reflexivity|].
    destruct (Z.ltb_spec (Z.of_nat (String.length (body r))) 0) as [Hneg|_]; [lia|].
    rewrite Nat2Z.id, substring_prefix, substring_whole. reflexivity. }
  split; [exact Hclass|].
  destruct (String.eqb_spec (path r) "/location_data") as [E|E].
  - rewrite (ListenerFacts.do_POST_location json_loads json_dumps r w E).
    rewrite (ListenerFacts.do_POST_location json_loads json_dumps
               (with_body (body r ++ extra) r) w E).
    rewrite Hclass. reflexivity.
  - rewrite (ListenerFacts.do_POST_other_path json_loads json_dumps r w E).
    apply (ListenerFacts.do_POST_other_path json_loads json_dumps
             (with_body (body r ++ extra) r) w E).
Qed.

(** X6.  The post-shutdown read never raises; it either leaves the
    machine as it is or removes the record and nothing else; and a pair
    it returns has two non-null members and leaves no record. *)
Theorem post_shutdown_read_is_safe (w : world) :
  exists result w',
    post_shutdown_read w = Ok result w'
    /\ (w' = w \/ w' = emit Removed (set_temp_file None w))
    /\ (forall latitude longitude,
           result = Some (latitude, longitude) ->
           is_not_None latitude = true /\ is_not_None longitude = true
           /\ temp_file w' = None).
Proof.
  rewrite (ListenerFacts.post_shutdown_read_cases json_loads w).
  assert (Keep : exists result w',
             Ok None w = Ok result w'
             /\ (w' = w \/ w' = emit Removed (set_temp_file None w))
             /\ (forall latitude longitude : json,
                    result = Some (latitude, longitude) ->
                    is_not_None latitude = true /\ is_not_None longitude = true
                    /\ temp_file w' = None)).
  { exists None, w. split; [reflexivity|]. split; [left; reflexivity|].
    intros latitude longitude H. discriminate H. }
  destruct (temp_file w) as [text|]; [|exact Keep].
  destruct (may_read w); [|exact Keep].
  destruct (json_loads text) as [data|]; [|exact Keep].
  destruct data; try exact Keep.
  destruct (may_remove w); [|exact Keep].
  eexists. eexists. split; [reflexivity|]. split; [right; reflexivity|].
  intros latitude longitude H.
  destruct (is_not_None (dict_get "latitude" fields)) eqn:Hlat; [|discriminate H].
  destruct (is_not_None (dict_get "longitude" fields)) eqn:Hlon; [|discriminate H].
  simpl in H. inversion H; subst. split_all; try assumption. reflexivity.
Qed.

(** X7.  Read-then-delete happens once: after a read that returned a
    pair, a second read returns [None] and changes nothing. *)
Theorem second_read_finds_nothing (w w' : world) (pair : json * json) :
  post_shutdown_read w = Ok (Some pair) w' ->
  post_shutdown_read w' = Ok None w'.
Proof.
  rewrite (ListenerFacts.post_shutdown_read_cases json_loads w).
  destruct (temp_file w) as [text|]; [|discriminate].
  destruct (may_read w); [|discriminate].
  destruct (json_loads text) as [data|]; [|discriminate].
  destruct data; try discriminate.
  destruct (may_remove w); [|discriminate].
  intro H. inversion H; subst.
  rewrite (ListenerFacts.post_shutdown_read_cases json_loads). reflexivity.
Qed.



Lemma handled_refl (w : world) (srv : server) : httpd w = Some srv -> handled w w srv.
Proof.
  intro H. exists [], srv. rewrite app_nil_r. split_all; try reflexivity; try assumption.
  left. reflexivity.
Qed.

Lemma handled_trans (a b c : world) (srv srv' : server) :
  httpd b = Some srv' -> handled a b srv -> handled b c srv' -> handled a c srv.
Proof.
  intros Hb (m1 & s1 & L1 & E1 & H1 & O1 & D1 & F1) (m2 & s2 & L2 & E2 & H2 & O2 & D2 & F2).
  assert (s1 = srv') by congruence. subst s1.
  exists (m1 ++ m2), s2. split; [rewrite L2, L1, app_assoc; reflexivity|].
  split; [rewrite forallb_app, E1, E2; reflexivity|].
  split; [exact H2|]. split; [congruence|]. split; [congruence|].
  destruct F2 as [F2|(text & F2 & I2)].
  - destruct F1 as [F1|(text & F1 & I1)].
    + left. congruence.
    + right. exists text. split; [congruence|]. apply in_or_app. left. exact I1.
  - right. exists text. split; [exact F2|]. apply in_or_app. right. exact I2.
Qed.

Lemma handle_any (r : http_request) (w : world) (srv : server) :
  httpd w = Some srv ->
  handled w (final_world (handle_one_request r w)) srv.
Proof.
  intro Hsrv. destruct (is_accepted_post r) eqn:Hacc.
  - destruct (handle_accepted r w Hacc) as (latitude & longitude & _ & Hrun).
    rewrite Hrun, (ListenerFacts.accepted_branch json_dumps). cbv zeta.
    rewrite Hsrv.
    destruct (may_write w); [destruct (is_shut_down srv) eqn:Hdown|];
      cbn [final_world]; unfold handled;
      cbn [log temp_file httpd emit set_temp_file set_httpd];
      rewrite <- ?app_assoc; cbn [app].
    + eexists. eexists. split; [reflexivity|]. split; [reflexivity|].
      split; [reflexivity|]. split; [reflexivity|].
      split; [cbn [is_shut_down]; congruence|].
      right. eexists. split; [reflexivity|]. left. reflexivity.
    + eexists. eexists. split; [reflexivity|]. split; [reflexivity|].
      split; [reflexivity|]. split; [reflexivity|].
      split; [cbn [is_shut_down]; congruence|].
      right. eexists. split; [reflexivity|]. left. reflexivity.
    + exists [Head 500 None], srv. split_all; try reflexivity; try assumption.
      left. reflexivity.
  - destruct (handle_unaccepted r w Hacc) as (w1 & answer & Hrun & Hsame & Hlog & _ & Hans).
    rewrite Hrun. cbn [final_world].
    destruct Hsame as (Hfile & _ & _ & _ & _ & Hh).
    exists answer, srv. split; [exact Hlog|].
    split; [apply answers_are_handler_events; exact Hans|].
    split; [congruence|]. split; [reflexivity|]. split; [reflexivity|].
    left. exact Hfile.
Qed.

Lemma serve_loop_any (incoming : list http_request) :
  forall w srv,
    httpd w = Some srv ->
    handled w (final_world (serve_loop incoming w)) srv.
Proof.
  induction incoming as [|r rest IH]; intros w srv Hsrv; simpl; rewrite Hsrv.
  - destruct (shutdown_request srv); apply handled_refl; exact Hsrv.
  - destruct (shutdown_request srv); [apply handled_refl; exact Hsrv|].
    pose proof (handle_any r w srv Hsrv) as Hstep.
    destruct (handle_one_request r w) as [[] w1|e w1|w1]; cbn [final_world] in Hstep.
    + destruct Hstep as (m & s1 & Hrest). assert (Hs1 : httpd w1 = Some s1) by tauto.
      eapply handled_trans; [exact Hs1|exists m, s1; exact Hrest|].
      pose proof (IH w1 s1 Hs1) as Hnext.
      destruct Hrest as (_ & _ & _ & Ho & Hd & _).
      destruct Hnext as (m2 & s2 & L2 & E2 & H2 & O2 & D2 & F2).
      exists m2, s2. split_all; try assumption.
    + destruct Hstep as (m & s1 & Hrest). assert (Hs1 : httpd w1 = Some s1) by tauto.
      eapply handled_trans; [exact Hs1|exists m, s1; exact Hrest|].
      pose proof (IH w1 s1 Hs1) as Hnext.
      destruct Hnext as (m2 & s2 & L2 & E2 & H2 & O2 & D2 & F2).
      exists m2, s2. split_all; try assumption.
    + exact Hstep.
Qed.

(** Once the socket is bound, the call stays in the serve loop. *)
Lemma bound_server_serves (incoming : list http_request) (w1 : world) :
  port_free w1 = true ->
  exists w' srv more,
    finally (catch (ShutdownableTCPServer;; serve_forever incoming;;
                    read_handoff json_loads) (except_clause))
            finally_clause (set_httpd None w1) = Blocked w'
    /\ httpd w' = Some srv
    /\ socket_open srv = true
    /\ log w' = log w1 ++ Bind ADDRESS PORT true :: more
    /\ forallb is_handler_event more = true
    /\ (temp_file w' = temp_file w1
        \/ exists text, temp_file w' = Some text /\ In (Wrote text) more).
Proof.
  intro Hport.
  unfold finally at 1, catch, bind at 1, ShutdownableTCPServer.
  cbn [port_free set_httpd]. rewrite Hport.
  unfold Listener.serve_forever, bind at 1 2, clear_is_shut_down.
  cbn [httpd emit set_httpd shutdown_request is_shut_down socket_open].
  unfold finally.
  match goal with
  | |- context [Listener.serve_loop _ _ incoming ?x] =>
      pose proof (ListenerFacts.serve_loop_stuck json_loads json_dumps incoming x _
                    eq_refl eq_refl eq_refl) as Hstuck;
      pose proof (serve_loop_any incoming x _ eq_refl) as Hany;
      destruct (Listener.serve_loop json_loads json_dumps incoming x) as [a w'|e w'|w'];
      try discriminate Hstuck
  end.
  cbn [final_world] in Hany.
  destruct Hany as (more & srv & Hlog & Hev & Hsrv & Hopen & _ & Hfile).
  cbn [log temp_file socket_open emit set_httpd] in Hlog, Hopen, Hfile.
  exists w', srv, more. split; [reflexivity|]. split; [exact Hsrv|].
  split; [exact Hopen|]. split; [rewrite Hlog, <- app_assoc; reflexivity|].
  split; [exact Hev|exact Hfile].
Qed.

Lemma get_gps_location_after_cleanup (incoming : list http_request) (w w1 : world) :
  cleaned w = Some w1 ->
  get_gps_location incoming w
  = finally (catch (ShutdownableTCPServer;; serve_forever incoming;;
                    read_handoff json_loads) (except_clause))
            finally_clause (set_httpd None w1).
Proof.
  unfold cleaned, Listener.get_gps_location.
  cbv beta iota delta [bind path_exists os_remove ret].
  destruct (temp_file w) as [content|] eqn:Hfile; cbv beta iota; rewrite ?Hfile.
  - destruct (may_remove w); [|discriminate]. intro H. inversion H. reflexivity.
  - intro H. inversion H. reflexivity.
Qed.

(** X9.  A record left by an earlier run is removed before the socket
    is bound, and nothing of it survives: whatever the run does next,
    the file is afterwards absent or holds what this run wrote. *)
Theorem stale_record_is_removed_before_bind
    (incoming : list http_request) (w : world) (old : string) :
  temp_file w = Some old ->
  may_remove w = true ->
  let w' := final_world (get_gps_location incoming w) in
  exists more,
    log w' = log w ++ Removed :: Bind ADDRESS PORT (port_free w) :: more
    /\ forallb is_handler_event more = true
    /\ (temp_file w' = None
        \/ exists text, temp_file w' = Some text /\ In (Wrote text) more).
Proof.
  intros Hfile Hremove w'. subst w'.
  assert (Hclean : cleaned w = Some (emit Removed (set_temp_file None w))).
  { unfold cleaned. rewrite Hfile, Hremove. reflexivity. }
  destruct (port_free w) eqn:Hport.
  - rewrite (get_gps_location_after_cleanup incoming w _ Hclean).
    destruct (bound_server_serves incoming (emit Removed (set_temp_file None w)) Hport)
      as (w' & srv & more & Hrun & _ & _ & Hlog & Hev & Hrec).
    rewrite Hrun. cbn [final_world]. exists more.
    cbn [log temp_file emit set_temp_file] in Hlog, Hrec.
    split; [rewrite Hlog, <- app_assoc; reflexivity|]. split; [exact Hev|exact Hrec].
  - pose proof (ListenerFacts.get_gps_location_cases json_loads json_dumps incoming w) as C.
    rewrite Hclean, Hport in C. rewrite C. cbn [final_world log temp_file emit set_httpd set_temp_file].
    exists []. rewrite <- app_assoc. split; [reflexivity|]. split; [reflexivity|].
    left. reflexivity.
Qed.

(** X10.  Once the bind has succeeded the call never returns and the
    listening socket is never released: the [finally] clause is not
    reached, whatever requests arrive. *)
Theorem bound_socket_is_never_released
    (incoming : list http_request) (w w1 : world) :
  cleaned w = Some w1 ->
  port_free w = true ->
  exists w' srv more,
    get_gps_location incoming w = Blocked w'
    /\ httpd w' = Some srv
    /\ socket_open srv = true
    /\ log w' = log w1 ++ Bind ADDRESS PORT true :: more
    /\ forallb is_handler_event more = true.
Proof.
  intros Hclean Hport.
  assert (Hport1 : port_free w1 = true).
  { unfold cleaned in Hclean. destruct (temp_file w); [destruct (may_remove w)|];
      inversion Hclean; subst; exact Hport. }
  rewrite (get_gps_location_after_cleanup incoming w w1 Hclean).
  destruct (bound_server_serves incoming w1 Hport1)
    as (w' & srv & more & Hrun & Hsrv & Hopen & Hlog & Hev & _).
  exists w', srv, more. split_all; assumption.
Qed.

End Facts.

(** ** Witnesses on literal payloads *)



Lemma failed_write_is_answered_500_witness :
  handle_one_request MiniJson.loads MiniJson.dumps
    (post "/location_data" valid_payload) readonly_world
  = Ok tt (emit (Head 500 None) readonly_world).
Proof.
  exact (failed_write_is_answered_500 MiniJson.loads MiniJson.dumps
           (post "/location_data" valid_payload) readonly_world eq_refl eq_refl).
Defined.


Lemma bytes_after_content_length_are_ignored_witness :
  do_POST MiniJson.loads MiniJson.dumps
    (with_body (partial_payload ++ "garbage") (post "/location_data" partial_payload))
    serving_world
  = do_POST MiniJson.loads MiniJson.dumps (post "/location_data" partial_payload)
      serving_world.
Proof.
  exact (proj2 (bytes_after_content_length_are_ignored MiniJson.loads MiniJson.dumps
                  (post "/location_data" partial_payload) "18" "garbage" serving_world
                  eq_refl eq_refl)).
Defined.

Lemma second_read_finds_nothing_witness :
  post_shutdown_read MiniJson.loads (emit Removed clean_world)
  = Ok None (emit Removed clean_world).
Proof.
  exact (second_read_finds_nothing MiniJson.loads Output.record_world
           (emit Removed clean_world) (JFloat 12.34, JFloat 56.78) eq_refl).
Defined.


Lemma stale_record_is_removed_before_bind_witness :
  exists more,
    log (final_world (get_gps_location MiniJson.loads MiniJson.dumps
                        [bare_request "GET" "/"] stale_world))
    = log stale_world ++ Removed :: Bind ADDRESS PORT (port_free stale_world) :: more
    /\ forallb is_handler_event more = true
    /\ (temp_file (final_world (get_gps_location MiniJson.loads MiniJson.dumps
                                  [bare_request "GET" "/"] stale_world)) = None
        \/ exists text,
            temp_file (final_world (get_gps_location MiniJson.loads MiniJson.dumps
                                      [bare_request "GET" "/"] stale_world)) = Some text
            /\ In (Wrote text) more).
Proof.
  exact (stale_record_is_removed_before_bind MiniJson.loads MiniJson.dumps
           [bare_request "GET" "/"] stale_world "left over" eq_refl eq_refl).
Defined.

Lemma bound_socket_is_never_released_witness :
  exists w' srv more,
    get_gps_location MiniJson.loads MiniJson.dumps
      [post "/location_data" valid_payload] clean_world = Blocked w'
    /\ httpd w' = Some srv
    /\ socket_open srv = true
    /\ log w' = log clean_world ++ Bind ADDRESS PORT true :: more
    /\ forallb is_handler_event more = true.
Proof.
  exact (bound_socket_is_never_released MiniJson.loads MiniJson.dumps
           [post "/location_data" valid_payload] clean_world clean_world
           eq_refl eq_refl).
Defined.

End TrafficFacts.

(** * Further properties of weather.py *)

Module WeatherMoreFacts.
Import Weather WeatherReading.

Lemma py_max_of_zeros (l : list json) :
  py_max PyFloat.zero (map (fun _ => PyFloat.zero) l) = PyFloat.zero.
Proof.
  induction l as [|e l IH]; simpl; [reflexivity|exact IH].
Qed.

Lemma collect_pops_without_pop (fos : string -> option PyFloat.float) (l : list json) :
  Forall (fun e => exists fields, e = JObj fields /\ dict_get "pop" fields = JNull) l ->
  collect_pops fos l = map (fun _ => PyFloat.zero) l.
Proof.
  induction 1 as [|e l (fields & -> & Hpop) _ IH]; simpl; [reflexivity|].
  rewrite Hpop. simpl. rewrite IH. reflexivity.
Qed.


(** X12.  Forecast entries without a pop count as 0: when none of the
    first 8 entries carries one, the report says 0%, not N/A. *)
Theorem forecast_without_pop_reports_0
    (fos : string -> option PyFloat.float) (fields : list (string * json)) (e : json)
    (es : list json) :
  dict_get "list" fields = JArr (e :: es) ->
  Forall (fun x => exists fs, x = JObj fs /\ dict_get "pop" fs = JNull)
         (firstn 8 (e :: es)) ->
  rain_probability fos (Some (JObj fields)) = "0%".
Proof.
  intros Hlist Hall. unfold rain_probability.
  destruct fields as [|f fs]; [discriminate Hlist|].
  cbv zeta. rewrite Hlist. cbn [truthy].
  rewrite (collect_pops_without_pop fos _ Hall).
  change (firstn 8 (e :: es)) with (e :: firstn 7 es). cbn [map].
  rewrite py_max_of_zeros. reflexivity.
Qed.

Section Network.

Variable environ : string -> option string.
Variable requests_get : request -> reply.
Variable status_error_text : request -> Z -> string.
Variable str_format : string -> json -> option string.
Variable float_of_str : string -> option PyFloat.float.

Local Abbreviation fetch_weather_details :=
  (fetch_weather_details environ requests_get status_error_text str_format float_of_str).

Lemma fetch_unfolded (city : string) (api_key : option string) (timeout : Z) :
  city <> "" ->
  fetch_weather_details city api_key timeout =
  match requests_get (weather_request city timeout) with
  | Response status payload =>
      if Z.eqb status 404 then
        ([weather_request city timeout],
         Returned (Error ("City '" ++ strip city ++ "' not found (404).")))
      else if is_error_status status then
        ([weather_request city timeout],
         Returned (Error ("HTTP error while fetching current weather: "
                          ++ status_error_text (weather_request city timeout) status)))
      else
        match requests_get (forecast_request city timeout) with
        | Response fstatus fpayload =>
            ([weather_request city timeout; forecast_request city timeout],
             build_report str_format float_of_str (strip city) payload
               (if is_error_status fstatus then None else Some fpayload))
        | BadPayload _ _ | RequestException _ =>
            ([weather_request city timeout; forecast_request city timeout],
             build_report str_format float_of_str (strip city) payload None)
        | OtherException text =>
            ([weather_request city timeout; forecast_request city timeout], Raised text)
        end
  | BadPayload status text =>
      if Z.eqb status 404 then
        ([weather_request city timeout],
         Returned (Error ("City '" ++ strip city ++ "' not found (404).")))
      else if is_error_status status then
        ([weather_request city timeout],
         Returned (Error ("HTTP error while fetching current weather: "
                          ++ status_error_text (weather_request city timeout) status)))
      else
        ([weather_request city timeout],
         Returned (Error ("Network/error while fetching current weather: " ++ text)))
  | RequestException text =>
      ([weather_request city timeout],
       Returned (Error ("Network/error while fetching current weather: " ++ text)))
  | OtherException text =>
      ([weather_request city timeout],
       Returned (Error ("Unexpected error while fetching current weather: " ++ text)))
  end.
Proof.
  intro Hcity. unfold Weather.fetch_weather_details.
  destruct (String.eqb_spec city "") as [E|_]; [contradiction|].
  reflexivity.
Qed.

(** X13.  When the request for the current weather fails in any way,
    [fetch_weather_details] returns an error report - it does not
    raise - and the forecast is not requested. *)
Theorem failed_current_request_gives_error
    (city : string) (api_key : option string) (timeout : Z) :
  city <> "" ->
  is_failure (requests_get (weather_request city timeout)) = true ->
  exists message,
    fetch_weather_details city api_key timeout
    = ([weather_request city timeout], Returned (Error message)).
Proof.
  intros Hcity Hfail. rewrite (fetch_unfolded city api_key timeout Hcity).
  destruct (requests_get (weather_request city timeout)) as [status payload|status text|text|text];
    cbn [is_failure] in Hfail.
  - rewrite Hfail. destruct (Z.eqb status 404); eexists; reflexivity.
  - destruct (Z.eqb status 404); [|destruct (is_error_status status)]; eexists; reflexivity.
  - eexists; reflexivity.
  - eexists; reflexivity.
Qed.

(** X14.  The forecast is secondary: when the current weather arrived
    and the forecast request fails with a [RequestException], an error
    status or an unreadable body, the report is still built, with rain
    probability N/A. *)
Theorem failed_forecast_is_tolerated
    (city : string) (api_key : option string) (timeout : Z)
    (status : Z) (payload : json) (main wind : list (string * json)) :
  city <> "" ->
  requests_get (weather_request city timeout) = Response status payload ->
  is_error_status status = false ->
  section_of payload "main" = JObj main ->
  section_of payload "wind" = JObj wind ->
  is_absorbed (requests_get (forecast_request city timeout)) = true ->
  exists temperature humidity wind_speed,
    fetch_weather_details city api_key timeout
    = ([weather_request city timeout; forecast_request city timeout],
       Returned (Report (strip city) temperature humidity wind_speed "N/A")).
Proof.
  intros Hcity Hcur Hstatus Hmain Hwind Hfc.
  rewrite (fetch_unfolded city api_key timeout Hcity), Hcur, Hstatus.
  assert (H404 : Z.eqb status 404 = false).
  { destruct (Z.eqb_spec status 404) as [E|_]; [|reflexivity].
    subst status. discriminate Hstatus. }
  rewrite H404.
  destruct (requests_get (forecast_request city timeout)) as [fs fp|fs ft|ft|ft];
    cbn [is_absorbed] in Hfc; try discriminate Hfc; try rewrite Hfc;
    unfold build_report; rewrite Hmain, Hwind; eexists; eexists; eexists; reflexivity.
Qed.

(** X15.  [fetch_weather_details] sends at most two requests, first to
    the weather endpoint and then to the forecast endpoint, each for
    the stripped city name in metric units with the caller's timeout;
    for an empty city name it sends none. *)
Theorem requests_are_for_the_stripped_city
    (city : string) (api_key : option string) (timeout : Z) :
  let sent := fst (fetch_weather_details city api_key timeout) in
  (sent = [] \/ sent = [weather_request city timeout]
   \/ sent = [weather_request city timeout; forecast_request city timeout])
  /\ Forall (fun r => param_q r = strip city /\ param_units r = "metric"
                      /\ req_timeout r = timeout) sent
  /\ (city = "" -> sent = []).
Proof.
  cbv zeta. destruct (String.eqb_spec city "") as [E|E].
  - subst city. split; [left; reflexivity|]. split; [constructor|reflexivity].
  - rewrite (fetch_unfolded city api_key timeout E).
    split; [|split; [|contradiction]].
    + destruct (requests_get (weather_request city timeout)) as [st pl|st tx|tx|tx];
        [destruct (Z.eqb st 404); [|destruct (is_error_status st);
           [|destruct (requests_get (forecast_request city timeout))]]
        |destruct (Z.eqb st 404); [|destruct (is_error_status st)]| |];
        cbn [fst]; tauto.
    + destruct (requests_get (weather_request city timeout)) as [st pl|st tx|tx|tx];
        [destruct (Z.eqb st 404); [|destruct (is_error_status st);
           [|destruct (requests_get (forecast_request city timeout))]]
        |destruct (Z.eqb st 404); [|destruct (is_error_status st)]| |];
        cbn [fst]; repeat constructor.
Qed.

End Network.

Lemma forecast_without_pop_reports_0_witness :
  rain_probability sample_float (Some (forecast bare_entries)) = "0%".
Proof.
  refine (forecast_without_pop_reports_0 sample_float
            [("list", JArr bare_entries)] (JObj [("dt", JInt 1)])
            [JObj [("pop", JNull)]; JObj []] eq_refl _).
  repeat constructor; eexists; split; reflexivity.
Defined.

Lemma failed_current_request_gives_error_witness :
  exists message,
    fetch_weather_details sample_environ network_down sample_status_text sample_format
      sample_float "Pune" None DEFAULT_TIMEOUT
    = ([weather_request "Pune" DEFAULT_TIMEOUT], Returned (Error message)).
Proof.
  refine (failed_current_request_gives_error sample_environ network_down
            sample_status_text sample_format sample_float "Pune" None DEFAULT_TIMEOUT
            _ eq_refl).
  discriminate.
Defined.

Lemma failed_forecast_is_tolerated_witness :
  exists temperature humidity wind_speed,
    fetch_weather_details sample_environ forecast_down sample_status_text sample_format
      sample_float " Pune " None DEFAULT_TIMEOUT
    = ([weather_request " Pune " DEFAULT_TIMEOUT; forecast_request " Pune " DEFAULT_TIMEOUT],
       Returned (Report "Pune" temperature humidity wind_speed "N/A")).
Proof.
  refine (failed_forecast_is_tolerated sample_environ forecast_down sample_status_text
            sample_format sample_float " Pune " None DEFAULT_TIMEOUT 200 sample_current
            _ _ _ eq_refl eq_refl eq_refl eq_refl eq_refl).
  discriminate.
Defined.

Lemma requests_are_for_the_stripped_city_witness :
  fst (fetch_weather_details sample_environ sample_get sample_status_text sample_format
         sample_float "" None DEFAULT_TIMEOUT) = [].
Proof.
  exact (proj2 (proj2 (requests_are_for_the_stripped_city sample_environ sample_get
                         sample_status_text sample_format sample_float
                         "" None DEFAULT_TIMEOUT)) eq_refl).
Defined.

End WeatherMoreFacts.

(** * Properties of output.py *)

Module OutputFacts.
Import Listener Output.
Local Open Scope py_scope.

(** X16.  [get_city_from_coords] never returns an empty name: its
    result is always truthy, "Unknown" at the least. *)
Theorem city_name_is_never_empty
    (nominatim : json -> json -> geo_reply) (lat lon : json) :
  truthy (get_city_from_coords nominatim lat lon) = true.
Proof.
  unfold get_city_from_coords.
  destruct (nominatim lat lon) as [data|]; [|reflexivity].
  destruct (address_field data "city") as [city|]; [|reflexivity].
  destruct (truthy city) eqn:Hcity; [exact Hcity|].
  destruct (address_field data "town") as [town|]; [|reflexivity].
  destruct (truthy town) eqn:Htown; [exact Htown|].
  destruct (address_field data "village") as [village|]; [|reflexivity].
  destruct (truthy village) eqn:Hvillage; [exact Hvillage|].
  destruct (address_field data "state") as [state|]; [|reflexivity].
  destruct (truthy state) eqn:Hstate; [exact Hstate|reflexivity].
Qed.

(** X17.  For a reply with an address object the name is the first of
    city, town, village and state that is present and not empty, and
    "Unknown" when there is none; empty values are skipped like missing
    ones. *)
Theorem city_name_is_first_usable_field
    (nominatim : json -> json -> geo_reply) (lat lon : json)
    (fields address : list (string * json)) :
  nominatim lat lon = GeoJson (JObj fields) ->
  dict_lookup "address" fields = Some (JObj address) ->
  get_city_from_coords nominatim lat lon
  = match find truthy (map (fun k => dict_get k address)
                           ["city"; "town"; "village"; "state"]) with
    | Some name => name
    | None => JStr "Unknown"
    end.
Proof.
  intros Hreply Haddr. unfold get_city_from_coords, address_field.
  rewrite Hreply, Haddr. cbn [map find].
  destruct (truthy (dict_get "city" address)); [reflexivity|].
  destruct (truthy (dict_get "town" address)); [reflexivity|].
  destruct (truthy (dict_get "village" address)); [reflexivity|].
  destruct (truthy (dict_get "state" address)); reflexivity.
Qed.

(** X18.  Every failure of the lookup ends in "Unknown": a failed
    request, a reply that is not an object, and an address that is
    present but not an object; a reply without an address as well. *)
Theorem city_lookup_failures_give_Unknown
    (nominatim : json -> json -> geo_reply) (lat lon : json) :
  (nominatim lat lon = GeoFails ->
   get_city_from_coords nominatim lat lon = JStr "Unknown")
  /\ (forall data,
         nominatim lat lon = GeoJson data ->
         (forall fields, data <> JObj fields) ->
         get_city_from_coords nominatim lat lon = JStr "Unknown")
  /\ (forall fields address,
         nominatim lat lon = GeoJson (JObj fields) ->
         dict_lookup "address" fields = Some address ->
         (forall members, address <> JObj members) ->
         get_city_from_coords nominatim lat lon = JStr "Unknown")
  /\ (forall fields,
         nominatim lat lon = GeoJson (JObj fields) ->
         dict_lookup "address" fields = None ->
         get_city_from_coords nominatim lat lon = JStr "Unknown").
Proof.
  unfold get_city_from_coords. repeat split.
  - intro H. rewrite H. reflexivity.
  - intros data H Hobj. rewrite H.
    destruct data; try reflexivity. exfalso. exact (Hobj fields eq_refl).
  - intros fields address H Haddr Hobj. rewrite H. unfold address_field. rewrite Haddr.
    destruct address; try reflexivity. exfalso. exact (Hobj fields0 eq_refl).
  - intros fields H Haddr. rewrite H. unfold address_field. rewrite Haddr. reflexivity.
Qed.

Section Files.

Variable json_loads : string -> option json.

Local Abbreviation retrieve_coordinates_from_file :=
  (retrieve_coordinates_from_file json_loads).

Lemma retrieve_cases (w : world) :
  retrieve_coordinates_from_file w =
  Ok match temp_file w with
     | None => None
     | Some text =>
         if may_read w then
           match json_loads text with
           | Some (JObj fields) =>
               if is_not_None (dict_get "latitude" fields)
                  && is_not_None (dict_get "longitude" fields)
               then Some (dict_get "latitude" fields, dict_get "longitude" fields)
               else None
           | _ => None
           end
         else None
     end w.
Proof.
  unfold Output.retrieve_coordinates_from_file, read_previous.
  cbv beta iota delta [bind catch lift_option ret raise py_get path_exists read_file].
  destruct (temp_file w) as [text|] eqn:Hfile; [|reflexivity].
  cbv beta iota. rewrite ?Hfile.
  destruct (may_read w); [|reflexivity].
  destruct (json_loads text) as [data|]; [|reflexivity].
  destruct data; try reflexivity.
  destruct (is_not_None (dict_get "latitude" fields)
            && is_not_None (dict_get "longitude" fields)); reflexivity.
Qed.

(** X19.  [retrieve_coordinates_from_file] never raises and never
    touches the file; a pair it returns has two non-null members; and
    it accepts exactly the records the post-shutdown read of the
    listener accepts, which returns the same result when it may remove
    the file. *)
Theorem retrieve_is_a_read_only_post_shutdown_read (w : world) :
  exists result,
    retrieve_coordinates_from_file w = Ok result w
    /\ (forall latitude longitude,
           result = Some (latitude, longitude) ->
           is_not_None latitude = true /\ is_not_None longitude = true)
    /\ (may_remove w = true ->
        exists w', post_shutdown_read json_loads w = Ok result w').
Proof.
  rewrite retrieve_cases, (ListenerFacts.post_shutdown_read_cases json_loads w).
  eexists. split; [reflexivity|].
  destruct (temp_file w) as [text|].
  2:{ split; [discriminate|]. intros _. eexists. reflexivity. }
  destruct (may_read w).
  2:{ split; [discriminate|]. intros _. eexists. reflexivity. }
  destruct (json_loads text) as [data|].
  2:{ split; [discriminate|]. intros _. eexists. reflexivity. }
  destruct data; try (split; [discriminate|]; intros _; eexists; reflexivity).
  split.
  - intros latitude longitude H.
    destruct (is_not_None (dict_get "latitude" fields)) eqn:Hlat; [|discriminate H].
    destruct (is_not_None (dict_get "longitude" fields)) eqn:Hlon; [|discriminate H].
    simpl in H. inversion H; subst. split; assumption.
  - intro Hremove. rewrite Hremove. eexists. reflexivity.
Qed.

End Files.

Section Script.

Variable gps_server_exports : bool.
Variable json_loads : string -> option json.
Variable json_dumps : json -> string.
Variable nominatim : json -> json -> geo_reply.
Variable environ : string -> option string.
Variable requests_get : Weather.request -> Weather.reply.
Variable status_error_text : Weather.request -> Z -> string.
Variable str_format : string -> json -> option string.
Variable float_of_str : string -> option PyFloat.float.

Local Abbreviation main :=
  (main gps_server_exports json_loads json_dumps nominatim environ requests_get
     status_error_text str_format float_of_str).

(** X20.  The script prints weather only from a record of an earlier
    run: whenever it prints anything of the weather, the import of
    line 29 succeeded and the file at [file_path] held a record with
    both coordinates when the script started. *)
Theorem weather_is_printed_only_from_an_old_record
    (old w : world) (incoming : list http_request) (lines : list string) :
  main old w incoming = Printed lines ->
  gps_server_exports = true
  /\ exists latitude longitude,
      retrieve_coordinates_from_file json_loads old = Ok (Some (latitude, longitude)) old.
Proof.
  unfold Output.main. destruct gps_server_exports; [|discriminate].
  intro H. split; [reflexivity|]. revert H.
  unfold run_blocks. rewrite (retrieve_cases json_loads old).
  destruct (match temp_file old with Some _ => _ | None => _ end) as [[latitude longitude]|].
  - intros _. exists latitude, longitude. reflexivity.
  - pose proof (ListenerFacts.get_gps_location_cases json_loads json_dumps incoming w) as C.
    destruct (cleaned w) as [w1|].
    + destruct (port_free w).
      * destruct (get_gps_location json_loads json_dumps incoming w) as [r w'|e w'|w'];
          try discriminate C. discriminate.
      * rewrite C. discriminate.
    + rewrite C. discriminate.
Qed.

(** X21.  Without a usable old record the script never reports
    weather: it ends in the ImportError of line 29 when the package
    does not export [get_gps_location]; otherwise it stays in the
    listener for ever when the port could be bound, ends in a NameError
    ([city] was never assigned) when the bind failed, and in the
    PermissionError of the cleanup when a record at the listener's path
    could not be removed. *)
Theorem without_an_old_record_the_script_never_reports
    (old w : world) (incoming : list http_request) :
  retrieve_coordinates_from_file json_loads old = Ok None old ->
  main old w incoming
  = if gps_server_exports then
      match cleaned w with
      | None => Crashed "PermissionError"
      | Some _ => if port_free w then NeverReturns else Crashed "NameError"
      end
    else Crashed "ImportError".
Proof.
  intro Hold. unfold Output.main. destruct gps_server_exports; [|reflexivity].
  unfold run_blocks. rewrite Hold.
  pose proof (ListenerFacts.get_gps_location_cases json_loads json_dumps incoming w) as C.
  destruct (cleaned w) as [w1|].
  - destruct (port_free w).
    + destruct (get_gps_location json_loads json_dumps incoming w) as [r w'|e w'|w'];
        try discriminate C. reflexivity.
    + rewrite C. reflexivity.
  - rewrite C. reflexivity.
Qed.

End Script.

Lemma city_name_is_first_usable_field_witness :
  get_city_from_coords sample_nominatim (JFloat 12.34) (JFloat 56.78) = JStr "Pune".
Proof.
  exact (city_name_is_first_usable_field sample_nominatim (JFloat 12.34) (JFloat 56.78)
           _ _ eq_refl eq_refl).
Defined.

Lemma city_lookup_failures_give_Unknown_witness :
  get_city_from_coords failing_nominatim (JFloat 12.34) (JFloat 56.78) = JStr "Unknown"
  /\ get_city_from_coords (fun _ _ => GeoJson (JArr [])) JNull JNull = JStr "Unknown"
  /\ get_city_from_coords (fun _ _ => GeoJson (JObj [("address", JNull)])) JNull JNull
     = JStr "Unknown"
  /\ get_city_from_coords (fun _ _ => GeoJson (JObj [("error", JStr "none")])) JNull JNull
     = JStr "Unknown".
Proof.
  split; [|split; [|split]].
  - exact (proj1 (city_lookup_failures_give_Unknown failing_nominatim
                    (JFloat 12.34) (JFloat 56.78)) eq_refl).
  - refine (proj1 (proj2 (city_lookup_failures_give_Unknown
                            (fun _ _ => GeoJson (JArr [])) JNull JNull))
              (JArr []) eq_refl _).
    intros fields H. discriminate H.
  - refine (proj1 (proj2 (proj2 (city_lookup_failures_give_Unknown
                                   (fun _ _ => GeoJson (JObj [("address", JNull)]))
                                   JNull JNull)))
              [("address", JNull)] JNull eq_refl eq_refl _).
    intros members H. discriminate H.
  - exact (proj2 (proj2 (proj2 (city_lookup_failures_give_Unknown
                                  (fun _ _ => GeoJson (JObj [("error", JStr "none")]))
                                  JNull JNull)))
             [("error", JStr "none")] eq_refl eq_refl).
Defined.

Lemma retrieve_is_a_read_only_post_shutdown_read_witness :
  exists result,
    retrieve_coordinates_from_file MiniJson.loads record_world = Ok result record_world
    /\ (forall latitude longitude,
           result = Some (latitude, longitude) ->
           is_not_None latitude = true /\ is_not_None longitude = true)
    /\ (may_remove record_world = true ->
        exists w', post_shutdown_read MiniJson.loads record_world = Ok result w').
Proof.
  exact (retrieve_is_a_read_only_post_shutdown_read MiniJson.loads record_world).
Defined.

Lemma weather_is_printed_only_from_an_old_record_witness :
  true = true
  /\ exists latitude longitude,
      retrieve_coordinates_from_file MiniJson.loads record_world
      = Ok (Some (latitude, longitude)) record_world.
Proof.
  refine (weather_is_printed_only_from_an_old_record true MiniJson.loads MiniJson.dumps
            sample_nominatim Weather.sample_environ Weather.sample_get
            Weather.sample_status_text Weather.sample_format Weather.sample_float
            record_world clean_world [] _ _).
  vm_compute. reflexivity.
Defined.

Lemma without_an_old_record_the_script_never_reports_witness :
  main true MiniJson.loads MiniJson.dumps sample_nominatim Weather.sample_environ
    Weather.sample_get Weather.sample_status_text Weather.sample_format
    Weather.sample_float clean_world busy_world []
  = Crashed "NameError"
  /\ main false MiniJson.loads MiniJson.dumps sample_nominatim Weather.sample_environ
       Weather.sample_get Weather.sample_status_text Weather.sample_format
       Weather.sample_float clean_world busy_world []
     = Crashed "ImportError".
Proof.
  split.
  - exact (without_an_old_record_the_script_never_reports true MiniJson.loads
             MiniJson.dumps sample_nominatim Weather.sample_environ Weather.sample_get
             Weather.sample_status_text Weather.sample_format Weather.sample_float
             clean_world busy_world [] eq_refl).
  - exact (without_an_old_record_the_script_never_reports false MiniJson.loads
             MiniJson.dumps sample_nominatim Weather.sample_environ Weather.sample_get
             Weather.sample_status_text Weather.sample_format Weather.sample_float
             clean_world busy_world [] eq_refl).
Defined.

End OutputFacts.

(** * The order of the handoff *)

Module HandoffFacts.
Import Listener Traffic.
Local Open Scope py_scope.

Section Facts.

Variable json_loads : string -> option json.
Variable json_dumps : json -> string.

Local Abbreviation do_POST := (do_POST json_loads json_dumps).
Local Abbreviation handle_one_request := (handle_one_request json_loads json_dumps).
Local Abbreviation serve_loop := (serve_loop json_loads json_dumps).
Local Abbreviation post_shutdown_read := (post_shutdown_read json_loads).




End Facts.



End HandoffFacts.
